(** * asdp-web: the research-summary form of [src/App.jsx]

    A shallow embedding of the single React component [App]: its four
    pieces of state, the asynchronous function [fetchSummary], the two
    event handlers and the four conditional blocks of the results panel,
    followed by the properties the specification states about them. *)

From Stdlib Require Import List Bool NArith ZArith Lia String Ascii DecimalString.
Import ListNotations.

Set Warnings "-register-all".

(** ** JavaScript strings

    A JavaScript string is a sequence of UTF-16 code units. *)

Definition js_string : Type := list N.

(** An ASCII literal of the source, as code units. *)
Definition lit (s : string) : js_string :=
  map N_of_ascii (list_ascii_of_string s).

Definition is_empty (s : js_string) : bool :=
  match s with [] => true | _ :: _ => false end.

Fixpoint str_eqb (a b : js_string) : bool :=
  match a, b with
  | [], [] => true
  | x :: a', y :: b' => N.eqb x y && str_eqb a' b'
  | _, _ => false
  end.

(** WhiteSpace and LineTerminator of ECMAScript: what [String.prototype.trim]
    strips.  TAB LF VT FF CR SP NBSP, U+1680, U+2000..U+200A, U+2028, U+2029,
    U+202F, U+205F, U+3000 and U+FEFF. *)
Definition is_space (c : N) : bool :=
  existsb (N.eqb c)
    [9; 10; 11; 12; 13; 32; 160; 5760; 8232; 8233; 8239; 8287; 12288; 65279]%N
  || (N.leb 8192 c && N.leb c 8202).

Fixpoint trimStart (s : js_string) : js_string :=
  match s with
  | [] => []
  | c :: rest => if is_space c then trimStart rest else s
  end.

Definition trimEnd (s : js_string) : js_string := rev (trimStart (rev s)).

Definition trim (s : js_string) : js_string := trimEnd (trimStart s).

(** ** Thrown values

    Everything [fetchSummary] can catch is read through its [message]
    property only; [None] is a thrown value without that property. *)

Record exn : Type := Thrown { message : option js_string }.

(** ** The host: what the browser and the build supply

    JSON numbers are observed only through [ToBoolean] and [ToString]; the
    text of the engine's TypeErrors differs between browsers; the endpoint
    may be overridden by the build ([import.meta.env.VITE_API_URL]). *)

Class Host : Type := {
  number : Type;
  number_truthy : number -> bool;
  number_to_string : number -> js_string;
  null_read_message : js_string -> js_string;
  to_primitive_message : js_string;
  VITE_API_URL : option js_string
}.

Declare Scope act_scope.
Delimit Scope act_scope with act.

Section Model.

Context {host : Host}.

(** ** JSON values, as [res.json()] delivers them *)

Inductive json : Type :=
| JNull
| JBool (b : bool)
| JNum (n : number)
| JStr (s : js_string)
| JArr (items : list json)
| JObj (props : list (js_string * json)).

(** The result of a property read: [None] is [undefined]. *)
Definition value : Type := option json.

Fixpoint lookup (key : js_string) (props : list (js_string * json)) : value :=
  match props with
  | [] => None
  | (k, v) :: rest => if str_eqb k key then Some v else lookup key rest
  end.

(** [v.key] for a key that no built-in prototype defines (the program reads
    [detail], [error], [first_answer] and [second_answer] only): the own
    property of an object, [undefined] on every other non-null value. *)
Definition field (v : json) (key : js_string) : value :=
  match v with
  | JObj props => lookup key props
  | _ => None
  end.

(** The read itself: a property of [null] cannot be read. *)
Definition get (v : json) (key : js_string) : exn + value :=
  match v with
  | JNull => inl (Thrown (Some (null_read_message key)))
  | _ => inr (field v key)
  end.

(** [ToBoolean]. *)
Definition truthy (v : value) : bool :=
  match v with
  | None | Some JNull => false
  | Some (JBool b) => b
  | Some (JNum n) => number_truthy n
  | Some (JStr s) => negb (is_empty s)
  | Some (JArr _) | Some (JObj _) => true
  end.

(** [a ?? b] with a non-nullish right operand. *)
Definition nullish_or (a : value) (b : json) : json :=
  match a with
  | None | Some JNull => b
  | Some v => v
  end.

(** [ToString].  An array joins its elements with commas, [null] elements
    giving the empty string; an object prints as [[object Object]] unless an
    own [toString] property (never callable in parsed JSON) shadows the
    inherited method, in which case the conversion throws. *)
Fixpoint to_string (v : json) : exn + js_string :=
  match v with
  | JNull => inr (lit "null")
  | JBool true => inr (lit "true")
  | JBool false => inr (lit "false")
  | JNum n => inr (number_to_string n)
  | JStr s => inr s
  | JArr items =>
      (fix join (l : list json) : exn + js_string :=
         match l with
         | [] => inr []
         | x :: rest =>
             let head := match x with JNull => inr [] | _ => to_string x end in
             match head with
             | inl e => inl e
             | inr s =>
                 match rest with
                 | [] => inr s
                 | _ :: _ =>
                     match join rest with
                     | inl e => inl e
                     | inr t => inr (s ++ lit "," ++ t)
                     end
                 end
             end
         end) items
  | JObj props =>
      match lookup (lit "toString") props with
      | Some _ => inl (Thrown (Some to_primitive_message))
      | None => inr (lit "[object Object]")
      end
  end.

(** [new Error(v)]: the message is [ToString v], and the empty string
    inherited from [Error.prototype] when [v] is [undefined]. *)
Definition new_Error (v : value) : exn + exn :=
  match v with
  | None => inr (Thrown (Some []))
  | Some j =>
      match to_string j with
      | inl e => inl e
      | inr s => inr (Thrown (Some s))
      end
  end.

(** [err.message || fallback]. *)
Definition message_or (err : exn) (fallback : js_string) : js_string :=
  match message err with
  | Some (c :: m) => c :: m
  | _ => fallback
  end.

(** ** Component state (lines 14-17) and the outside world *)

Record result : Type := Result { title : json; summary : json }.

Record state : Type := State {
  prompt : js_string;
  response : option result;
  isLoading : bool;
  error : js_string
}.

(** A call of [fetch]: the URL and the init object.  [body] is the value
    handed to [JSON.stringify]. *)
Record request : Type := Request {
  url : js_string;
  method : js_string;
  headers : list (js_string * js_string);
  body : json
}.

(** The component state, every [fetch] call made so far (newest first) and
    the number of calls whose promise has not settled yet. *)
Record world : Type := World {
  ui : state;
  calls : list request;
  pending : nat
}.

(** What the network answers: [res.json()] either yields a value or rejects
    (a body that is not JSON, a broken stream). *)
Record http_response : Type := Response { status : Z; res_json : exn + json }.

(** [res.ok]: the status is in the range 200-299. *)
Definition ok (res : http_response) : bool :=
  (200 <=? status res)%Z && (status res <=? 299)%Z.

(** How the promise returned by [fetch] settles. *)
Inductive outcome : Type :=
| Rejected (e : exn)
| Resolved (res : http_response).

(** ** Actions: state passing with exceptions *)

Definition Act (A : Type) : Type := world -> (exn + A) * world.

Definition ret {A} (a : A) : Act A := fun w => (inr a, w).

Definition throw {A} (e : exn) : Act A := fun w => (inl e, w).

Definition bind {A B} (m : Act A) (k : A -> Act B) : Act B :=
  fun w =>
    match m w with
    | (inl e, w') => (inl e, w')
    | (inr a, w') => k a w'
    end.

(** [try { m } catch (e) { h e }]. *)
Definition try_catch {A} (m : Act A) (h : exn -> Act A) : Act A :=
  fun w =>
    match m w with
    | (inl e, w') => h e w'
    | (inr a, w') => (inr a, w')
    end.

(** [try { m } finally { f }]: [f] runs on both exits and keeps the
    completion of [m] unless it throws itself. *)
Definition try_finally {A} (m : Act A) (f : Act unit) : Act A :=
  fun w =>
    match m w with
    | (r, w') =>
        match f w' with
        | (inl e, w'') => (inl e, w'')
        | (inr _, w'') => (r, w'')
        end
    end.

(** A pure operation that may throw, or an already settled promise. *)
Definition await {A} (r : exn + A) : Act A := fun w => (r, w).

Notation "x <- m ;; k" := (bind m (fun x => k))
  (at level 61, m at next level, right associativity) : act_scope.
Notation "m ;; k" := (bind m (fun _ => k))
  (at level 61, right associativity) : act_scope.
Local Open Scope act_scope.

Definition on_ui (f : state -> state) : Act unit :=
  fun w => (inr tt, World (f (ui w)) (calls w) (pending w)).

Definition setPrompt (v : js_string) : Act unit :=
  on_ui (fun s => State v (response s) (isLoading s) (error s)).

Definition setResponse (v : option result) : Act unit :=
  on_ui (fun s => State (prompt s) v (isLoading s) (error s)).

Definition setIsLoading (v : bool) : Act unit :=
  on_ui (fun s => State (prompt s) (response s) v (error s)).

Definition setError (v : js_string) : Act unit :=
  on_ui (fun s => State (prompt s) (response s) (isLoading s) v).

(** [fetch(u, init)] up to the suspension: the call is made and its promise
    is pending. *)
Definition fetch (r : request) : Act unit :=
  fun w => (inr tt, World (ui w) (r :: calls w) (S (pending w))).

(** Resuming at [await fetch(...)]: the promise has settled. *)
Definition fetch_settled (o : outcome) : Act http_response :=
  fun w =>
    (match o with Rejected e => inl e | Resolved res => inr res end,
     World (ui w) (calls w) (Nat.pred (pending w))).

(** ** The program *)

(** Line 4. *)
Definition API_URL : js_string :=
  match VITE_API_URL with
  | Some u => u
  | None => lit "http://127.0.0.1:8000/api/ask/"
  end.

(** Lines 6-11; the first suggestion has U+2019 as its apostrophe. *)
Definition suggestions : list js_string :=
  [ lit "How is AI used to detect early-stage Alzheimer" ++ [8217%N]
      ++ lit "s disease?";
    lit "What does research say about climate-resilient agriculture strategies?";
    lit "Summarize peer-reviewed findings on AI-assisted drug discovery pipelines.";
    lit "What are emerging best practices for cybersecurity in healthcare IoT devices?" ].

(** The request of lines 29-33. *)
Definition ask (trimmed : js_string) : request :=
  Request API_URL (lit "POST")
    [(lit "Content-Type", lit "application/json")]
    (JObj [(lit "prompt", JStr trimmed)]).

(** [fetchSummary], lines 19-33: from the call to the suspension at
    [await fetch(...)], or to the early [return]. *)
Definition fetchSummary (query : js_string) : Act unit :=
  let trimmed := trim query in
  if is_empty trimmed then
    setError (lit "Enter a research topic to explore.")
  else
    setIsLoading true ;;
    setError [] ;;
    fetch (ask trimmed).

(** Lines 35-45: the body of [if (!res.ok)].  [detail] starts as the
    fallback and is assigned as the last step of the inner [try], whose
    [catch] is empty; then the [Error] is built and thrown. *)
Definition not_ok_branch (res : http_response) : Act unit :=
  let fallbackMessage := JStr (lit "Something went wrong. Please try again.") in
  detail <- try_catch
              (errorBody <- await (res_json res) ;;
               d <- await (get errorBody (lit "detail")) ;;
               if truthy d then ret d else
               e <- await (get errorBody (lit "error")) ;;
               if truthy e then ret e else ret (Some fallbackMessage))
              (fun _ => ret (Some fallbackMessage)) ;;
  err <- await (new_Error detail) ;;
  throw err.

(** Lines 47-51. *)
Definition ok_branch (res : http_response) : Act unit :=
  data <- await (res_json res) ;;
  first_answer <- await (get data (lit "first_answer")) ;;
  second_answer <- await (get data (lit "second_answer")) ;;
  setResponse
    (Some (Result
       (nullish_or first_answer (JStr (lit "No title returned")))
       (nullish_or second_answer
          (JStr (lit "No summary available for this topic yet."))))).

(** Lines 52-54. *)
Definition catch_block (err : exn) : Act unit :=
  setResponse None ;;
  setError (message_or err (lit "Unable to reach the research service.")).

(** Lines 29-51: the [try] block, from the settling of the [fetch]
    promise on. *)
Definition try_block (o : outcome) : Act unit :=
  res <- fetch_settled o ;;
  if negb (ok res) then not_ok_branch res else ok_branch res.

(** [fetchSummary], lines 29-57: from the settling of the [fetch] promise
    to the end of the function. *)
Definition fetchSummary_resume (o : outcome) : Act unit :=
  try_finally (try_catch (try_block o) catch_block) (setIsLoading false).

(** Lines 60-63; [prompt] is the state of the render that installed the
    handler. *)
Definition handleSubmit : Act unit :=
  fun w => fetchSummary (prompt (ui w)) w.

(** Lines 65-68. *)
Definition handleSuggestion (text : js_string) : Act unit :=
  setPrompt text ;;
  fetchSummary text.

(** Line 96, the input's [onChange]. *)
Definition onChange (text : js_string) : Act unit := setPrompt text.

(** ** The results panel (lines 70 and 128-164)

    The elements the function returns: one constructor per conditional
    block, carrying the expressions the block interpolates.  What React
    displays for them, and when rendering them fails, is [App] below.
    The four guards are [error], [isLoading],
    [!isLoading && hasResult && response] and
    [!isLoading && !hasResult && !error]. *)

Inductive card : Type :=
| ErrorCard (msg : js_string)
| LoadingCard
| ResultCard (title summary : json)
| PlaceholderCard.

Definition hasResult (s : state) : bool :=
  match response s with Some _ => true | None => false end.

Definition results_panel (s : state) : list card :=
  (if negb (is_empty (error s)) then [ErrorCard (error s)] else [])
  ++ (if isLoading s then [LoadingCard] else [])
  ++ (if negb (isLoading s) && hasResult s then
        match response s with
        | Some r => [ResultCard (title r) (summary r)]
        | None => []
        end
      else [])
  ++ (if negb (isLoading s) && negb (hasResult s) && is_empty (error s)
      then [PlaceholderCard] else []).

(** ** The page as a transition system

    The input, the submit button and the suggestion pills are all
    [disabled={isLoading}] (lines 98, 100, 119); a promise settles only
    while one is pending.  These are the transitions of the handlers and
    of the state; [live_step] below restricts them to the page that is
    still mounted. *)

Inductive event : Type :=
| Change (text : js_string)
| Submit
| Suggest (i : nat)
| Settle (o : outcome).

Definition enabled (e : event) (w : world) : bool :=
  match e with
  | Change _ | Submit => negb (isLoading (ui w))
  | Suggest i => negb (isLoading (ui w)) && (i <? List.length suggestions)
  | Settle _ => 0 <? pending w
  end.

Definition dispatch (e : event) : Act unit :=
  match e with
  | Change text => onChange text
  | Submit => handleSubmit
  | Suggest i => handleSuggestion (nth i suggestions [])
  | Settle o => fetchSummary_resume o
  end.

Definition step (e : event) (w : world) : option world :=
  if enabled e w then Some (snd (dispatch e w)) else None.

Fixpoint run (es : list event) (w : world) : option world :=
  match es with
  | [] => Some w
  | e :: rest =>
      match step e w with
      | Some w' => run rest w'
      | None => None
      end
  end.

(** Lines 14-17: the initial state; no call has been made. *)
Definition initial : world := World (State [] None false []) [] 0.

Definition reachable (w : world) : Prop := exists es, run es initial = Some w.

End Model.

Arguments json : clear implicits.
Arguments value : clear implicits.

(** ** A concrete host, for running the program

    Chromium's TypeError texts; numbers restricted to the integers that a
    double holds exactly (below 2^53 in magnitude), which JavaScript prints
    in decimal; no endpoint override. *)

Definition safe_integer : Type := { z : Z | (Z.abs z <? 2 ^ 53)%Z = true }.

Definition chromium : Host := {|
  number := safe_integer;
  number_truthy := fun n => negb (proj1_sig n =? 0)%Z;
  number_to_string := fun n =>
    lit (NilZero.string_of_int (Z.to_int (proj1_sig n)));
  null_read_message := fun key =>
    lit "Cannot read properties of null (reading '" ++ key ++ lit "')";
  to_primitive_message := lit "Cannot convert object to primitive value";
  VITE_API_URL := None
|}.

(** ** Vocabulary of the specification *)

Section Vocabulary.

Context {host : Host}.

(** The world after a request has settled with result [r] and error [err]:
    the loading flag is down and one promise fewer is pending. *)
Definition settled (w : world) (r : option result) (err : js_string) : world :=
  World (State (prompt (ui w)) r false err) (calls w) (Nat.pred (pending w)).

(** The world once the [fetch] promise has settled. *)
Definition drained (w : world) : world :=
  World (ui w) (calls w) (Nat.pred (pending w)).

(** A field of an error body is available when it is a non-empty string. *)
Definition available (v : value host) : option js_string :=
  match v with
  | Some (JStr (c :: s)) => Some (c :: s)
  | _ => None
  end.

(** The error message the specification gives for a non-2xx response: the
    body's [detail] if available, otherwise its [error], otherwise the fixed
    fallback; the fallback as well when the body cannot be parsed. *)
Definition http_error_text (b : exn + json host) : js_string :=
  match b with
  | inl _ => lit "Something went wrong. Please try again."
  | inr errorBody =>
      match available (field errorBody (lit "detail")) with
      | Some x => x
      | None =>
          match available (field errorBody (lit "error")) with
          | Some y => y
          | None => lit "Something went wrong. Please try again."
          end
      end
  end.

(** The error body's fields are strings (section 6 of the specification):
    a field that is present and truthy is a string. *)
Definition textual (v : value host) : Prop :=
  truthy v = true -> exists s, v = Some (JStr s).

(** The failures of a request other than a non-2xx status, each with the
    value that is thrown: [fetch] rejects; the body of a 2xx response cannot
    be read as JSON; the body of a 2xx response is [null], whose
    [first_answer] cannot be read. *)
Inductive other_failure : outcome -> exn -> Prop :=
| fetch_rejects (e : exn) :
    other_failure (Rejected e) e
| body_rejects (res : http_response) (e : exn) :
    ok res = true -> res_json res = inl e ->
    other_failure (Resolved res) e
| body_null (res : http_response) :
    ok res = true -> res_json res = inr JNull ->
    other_failure (Resolved res)
      (Thrown (Some (null_read_message (lit "first_answer")))).

(** A request that ends in failure: a thrown error or a non-2xx status. *)
Definition is_failure (o : outcome) : bool :=
  match o with
  | Rejected _ => true
  | Resolved res =>
      negb (ok res) ||
      match res_json res with
      | inl _ | inr JNull => true
      | inr _ => false
      end
  end.

Definition is_result_card (c : card) : bool :=
  match c with ResultCard _ _ => true | _ => false end.

(** The worlds the page can be in: a request is pending exactly while the
    loading flag is up, and then the error is empty; at rest, a result is
    accompanied by no error or by the validation message. *)
Definition consistent (w : world) : Prop :=
  (isLoading (ui w) = true /\ pending w = 1 /\ error (ui w) = []) \/
  (isLoading (ui w) = false /\ pending w = 0 /\
   (response (ui w) = None \/ error (ui w) = [] \/
    error (ui w) = lit "Enter a research topic to explore.")).

(** The panels the page can show. *)
Inductive panel_shape : list card -> Prop :=
| only_placeholder : panel_shape [PlaceholderCard]
| only_loading : panel_shape [LoadingCard]
| only_error (msg : js_string) : msg <> [] -> panel_shape [ErrorCard msg]
| only_result (t s : json host) : panel_shape [ResultCard t s]
| validation_and_result (t s : json host) :
    panel_shape
      [ErrorCard (lit "Enter a research topic to explore."); ResultCard t s].

End Vocabulary.

(** ** Sample data, on the concrete host *)

(** The example of section 8 of the specification. *)
Definition quantum_answer : json chromium :=
  JObj [(lit "first_answer", JStr (lit "Quantum Speedups"));
        (lit "second_answer", JStr (lit "..."))].

(** Type a topic, submit, receive the answer, clear the input, submit. *)
Definition quantum_session : list (@event chromium) :=
  [Change (lit "quantum computing"); Submit;
   Settle (Resolved (Response 200 (inr quantum_answer)));
   Change []; Submit].

(** The world once the answer of the example has arrived. *)
Definition answered : @world chromium :=
  World
    (State (lit "quantum computing")
       (Some (Result (JStr (lit "Quantum Speedups")) (JStr (lit "..."))))
       false [])
    [ask (lit "quantum computing")] 0.

(** A 2xx response whose body is the JSON text [null]. *)
Definition null_reply : @outcome chromium :=
  Resolved (Response 200 (inr JNull)).

(** A server error with a [detail]. *)
Definition detail_reply (x : js_string) : @http_response chromium :=
  Response 500 (inr (JObj [(lit "detail", JStr x)])).

(** The network is unreachable. *)
Definition failed_to_fetch : exn := Thrown (Some (lit "Failed to fetch")).

(** An answer whose title is an object instead of a string. *)
Definition nested_answer : json chromium :=
  JObj [(lit "first_answer", JObj [(lit "text", JStr (lit "Quantum Speedups"))]);
        (lit "second_answer", JStr (lit "..."))].

(** The world while the request of the example is in flight. *)
Definition searching : @world chromium :=
  World (State (lit "quantum computing") None true [])
        [ask (lit "quantum computing")] 1.


(** ** The query panel (lines 85-125) and the footnote (lines 167-172) *)

Section QueryPanel.

Context {host : Host}.

(** What the form and the pills depend on: the value and the [disabled]
    attribute of the input (lines 95, 98), the label and the [disabled]
    attribute of the submit button (lines 100-101; the label ends in
    U+2026), and one pill per suggestion with its text and its [disabled]
    attribute (lines 113-123). *)
Record controls : Type := Controls {
  input_value : js_string;
  input_disabled : bool;
  button_label : js_string;
  button_disabled : bool;
  pills : list (js_string * bool)
}.

Definition query_panel (s : state) : controls :=
  Controls (prompt s) (isLoading s)
    (if isLoading s then lit "Searching" ++ [8230%N] else lit "Generate summary")
    (isLoading s)
    (map (fun item => (item, isLoading s)) suggestions).

(** Line 170: the address the footnote prints. *)
Definition footnote_url : js_string := API_URL.

(** A text that does not begin, or end, with white space. *)
Definition starts_clean (s : js_string) : bool :=
  match s with
  | [] => true
  | c :: _ => negb (is_space c)
  end.

Definition ends_clean (s : js_string) : bool := starts_clean (rev s).

(** The shape of the one request the program makes (lines 29-33), with a
    prompt that is not empty and has no white space at either end. *)
Definition well_formed (r : request) : Prop :=
  url r = footnote_url /\
  method r = lit "POST" /\
  headers r = [(lit "Content-Type", lit "application/json")] /\
  exists t, body r = JObj [(lit "prompt", JStr t)] /\
            t <> [] /\ starts_clean t = true /\ ends_clean t = true.

Definition is_change (e : event) : bool :=
  match e with Change _ => true | _ => false end.

(** The text last put in the input by the events [es], starting from [p]. *)
Definition typed (p : js_string) (es : list event) : js_string :=
  fold_left
    (fun p e =>
       match e with
       | Change text => text
       | Suggest i => nth i suggestions []
       | _ => p
       end) es p.

Definition is_object (v : json host) : bool :=
  match v with JObj _ => true | _ => false end.

(** The guard of the placeholder block (line 155). *)
Definition untouched (s : state) : bool :=
  negb (isLoading s) && negb (hasResult s) && is_empty (error s).

End QueryPanel.

(** ** What React makes of the returned elements

    [results_panel] is the list of elements the function returns; React
    then renders the children of each.  A string is its text, a number its
    string form, a boolean and [null] are nothing, an array is its items
    one after the other, and an object is not a valid child: rendering it
    throws, and with no error boundary around [App] the whole page is
    unmounted. *)

Section Rendering.

Context {host : Host}.

(** The text of a rendered child; [None] when rendering it throws. *)
Fixpoint child_text (v : json host) : option js_string :=
  match v with
  | JNull | JBool _ => Some []
  | JNum n => Some (number_to_string n)
  | JStr s => Some s
  | JArr items =>
      (fix each (l : list (json host)) : option js_string :=
         match l with
         | [] => Some []
         | x :: rest =>
             match child_text x, each rest with
             | Some a, Some b => Some (a ++ b)
             | _, _ => None
             end
         end) items
  | JObj _ => None
  end.

(** A card as it is displayed: the result card with the texts of its title
    (line 149) and of its summary (line 151). *)
Inductive shown : Type :=
| ShownError (msg : js_string)
| ShownLoading
| ShownResult (title summary : js_string)
| ShownPlaceholder.

Definition show_card (c : card) : option shown :=
  match c with
  | ErrorCard msg => Some (ShownError msg)
  | LoadingCard => Some ShownLoading
  | ResultCard t s =>
      match child_text t, child_text s with
      | Some a, Some b => Some (ShownResult a b)
      | _, _ => None
      end
  | PlaceholderCard => Some ShownPlaceholder
  end.

Fixpoint show_all (cs : list card) : option (list shown) :=
  match cs with
  | [] => Some []
  | c :: rest =>
      match show_card c, show_all rest with
      | Some x, Some xs => Some (x :: xs)
      | _, _ => None
      end
  end.

(** The page: the form and the pills, the displayed panel, the footnote. *)
Record view : Type := View {
  form : controls;
  panel : list shown;
  footnote : js_string
}.

(** [App], lines 13-175, as rendered: [None] is the unmounted page. *)
Definition App (s : state) : option view :=
  match show_all (results_panel s) with
  | Some cards => Some (View (query_panel s) cards footnote_url)
  | None => None
  end.

Definition mounted (w : world) : bool :=
  match App (ui w) with Some _ => true | None => false end.

(** The transitions of the page that is on screen: an unmounted page takes
    no event. *)
Definition live_step (e : event) (w : world) : option world :=
  if mounted w then step e w else None.

Fixpoint live_run (es : list event) (w : world) : option world :=
  match es with
  | [] => Some w
  | e :: rest =>
      match live_step e w with
      | Some w' => live_run rest w'
      | None => None
      end
  end.

Definition live_reachable (w : world) : Prop :=
  exists es, live_run es initial = Some w.

(** A field of the answer as the interface describes it (section 6 of the
    specification): absent, [null] or a string. *)
Definition text_or_missing (v : value host) : Prop :=
  v = None \/ v = Some JNull \/ exists x, v = Some (JStr x).

(** The result holds something React cannot render. *)
Definition unrenderable (r : result) : Prop :=
  child_text (title r) = None \/ child_text (summary r) = None.

End Rendering.

(** * Properties *)

Section Properties.

Context {host : Host}.

Ltac act_unfold :=
  unfold fetchSummary_resume, try_block, handleSubmit, handleSuggestion,
    onChange, catch_block, not_ok_branch, ok_branch, try_finally, try_catch,
    bind, ret, throw, await, fetch_settled, fetch, setPrompt, setResponse,
    setIsLoading, setError, on_ui, settled in *.

(** *** Trimming *)

Lemma trimStart_nil_iff (s : js_string) :
  trimStart s = [] <-> forallb is_space s = true.
Proof.
  induction s as [|c s IH]; simpl.
  - split; reflexivity.
  - destruct (is_space c); simpl.
    + exact IH.
    + split; discriminate.
Qed.

Lemma trimStart_head (s : js_string) (c : N) (r : js_string) :
  trimStart s = c :: r -> is_space c = false.
Proof.
  induction s as [|d s IH]; simpl; [discriminate|].
  destruct (is_space d) eqn:E; [exact IH|].
  intros H; injection H as -> _; exact E.
Qed.

Lemma forallb_rev (f : N -> bool) (s : js_string) :
  forallb f (rev s) = forallb f s.
Proof.
  induction s as [|c s IH]; simpl; [reflexivity|].
  rewrite forallb_app, IH; simpl.
  rewrite andb_true_r; apply andb_comm.
Qed.

(** The trim of a string is empty exactly when the string is empty or made
    of white space only. *)
Lemma trim_nil_iff (s : js_string) :
  trim s = [] <-> forallb is_space s = true.
Proof.
  unfold trim, trimEnd. split.
  - intros H.
    assert (H1 : trimStart (rev (trimStart s)) = []).
    { rewrite <- (rev_involutive (trimStart _)), H; reflexivity. }
    apply trimStart_nil_iff in H1. rewrite forallb_rev in H1.
    destruct (trimStart s) as [|c r] eqn:E.
    + apply trimStart_nil_iff; exact E.
    + apply trimStart_head in E. simpl in H1. rewrite E in H1. discriminate.
  - intros H. apply trimStart_nil_iff in H. rewrite H. reflexivity.
Qed.

Lemma is_empty_false (s : js_string) : s <> [] -> is_empty s = false.
Proof. destruct s; [congruence | reflexivity]. Qed.

(** *** Validation *)

(** C1. When the trim of the submitted text is empty (the text is empty or
    white space only), [fetchSummary] returns normally with the error state
    set to exactly "Enter a research topic to explore.", and no [fetch] call
    is made: the call log and the number of pending promises are unchanged,
    as are the other three pieces of state. *)
Theorem empty_prompt_rejected_locally (query : js_string) (w : world) :
  trim query = [] ->
  fst (fetchSummary query w) = inr tt /\
  error (ui (snd (fetchSummary query w)))
    = lit "Enter a research topic to explore." /\
  calls (snd (fetchSummary query w)) = calls w /\
  pending (snd (fetchSummary query w)) = pending w /\
  prompt (ui (snd (fetchSummary query w))) = prompt (ui w) /\
  response (ui (snd (fetchSummary query w))) = response (ui w) /\
  isLoading (ui (snd (fetchSummary query w))) = isLoading (ui w).
Proof.
  intros H. unfold fetchSummary. rewrite H. simpl.
  repeat split.
Qed.

(** *** Dispatch *)

(** The synchronous part of a valid submission, in one equation. *)
Lemma fetchSummary_dispatches (query : js_string) (w : world) :
  trim query <> [] ->
  fetchSummary query w =
  (inr tt,
   World (State (prompt (ui w)) (response (ui w)) true [])
         (ask (trim query) :: calls w) (S (pending w))).
Proof.
  intros H. unfold fetchSummary. rewrite (is_empty_false _ H). reflexivity.
Qed.

(** C2, as amended.  When the trim of the submitted text is not empty,
    [fetchSummary] clears the error and raises the loading flag before it
    issues the POST of the trimmed text; the earlier result stays in the
    state, and is hidden: while the request is pending the panel shows the
    loading indicator and nothing else. *)
Theorem dispatch_clears_error_keeps_result (query : js_string) (w : world) :
  trim query <> [] ->
  error (ui (snd (fetchSummary query w))) = [] /\
  isLoading (ui (snd (fetchSummary query w))) = true /\
  response (ui (snd (fetchSummary query w))) = response (ui w) /\
  calls (snd (fetchSummary query w)) = ask (trim query) :: calls w /\
  results_panel (ui (snd (fetchSummary query w))) = [LoadingCard].
Proof.
  intros H. rewrite (fetchSummary_dispatches query w H). simpl.
  repeat split.
Qed.

(** *** The two exits of the [try] block *)

(** The non-2xx branch always throws, and touches no state. *)
Lemma not_ok_branch_throws (res : http_response) (w : world) :
  exists e, not_ok_branch res w = (inl e, w).
Proof.
  act_unfold.
  destruct (res_json res) as [e0|errorBody]; simpl.
  - eexists; reflexivity.
  - destruct (get errorBody (lit "detail")) as [e0|d]; simpl.
    + eexists; reflexivity.
    + destruct (truthy d).
      * destruct (new_Error d); eexists; reflexivity.
      * destruct (get errorBody (lit "error")) as [e0|e1]; simpl.
        -- eexists; reflexivity.
        -- destruct (truthy e1); [destruct (new_Error e1)|];
             eexists; reflexivity.
Qed.

(** A 2xx response whose body is JSON other than [null] sets the result. *)
Lemma ok_branch_sets_result (res : http_response) (data : json host) (w : world) :
  res_json res = inr data -> data <> JNull ->
  ok_branch res w =
  (inr tt,
   World (State (prompt (ui w))
            (Some (Result
               (nullish_or (field data (lit "first_answer"))
                  (JStr (lit "No title returned")))
               (nullish_or (field data (lit "second_answer"))
                  (JStr (lit "No summary available for this topic yet.")))))
            (isLoading (ui w)) (error (ui w)))
         (calls w) (pending w)).
Proof.
  intros Hj Hn. act_unfold. rewrite Hj.
  destruct data; try congruence; reflexivity.
Qed.

(** The [try] block either throws, leaving the state as it was, or sets the
    result and nothing else. *)
Lemma try_block_cases (o : outcome) (w : world) :
  (exists e, try_block o w = (inl e, drained w)) \/
  (exists r, try_block o w =
     (inr tt,
      World (State (prompt (ui w)) (Some r) (isLoading (ui w)) (error (ui w)))
            (calls w) (Nat.pred (pending w)))).
Proof.
  unfold try_block, bind, fetch_settled.
  destruct o as [e|res].
  - left; eexists; reflexivity.
  - fold (drained w). destruct (ok res); simpl.
    + destruct (res_json res) as [e|data] eqn:Hj.
      * left. exists e. unfold ok_branch, bind, await. rewrite Hj. reflexivity.
      * destruct data eqn:Hd;
          try (right; eexists;
               rewrite (ok_branch_sets_result res _ _ Hj) by discriminate;
               reflexivity).
        left. eexists. unfold ok_branch, bind, await. rewrite Hj. reflexivity.
    + left. destruct (not_ok_branch_throws res (drained w)) as [e He].
      exists e. exact He.
Qed.

(** How a request ends when the [try] block throws [e]. *)
Lemma resume_after_throw (o : outcome) (w w1 : world) (e : exn) :
  try_block o w = (inl e, w1) ->
  fetchSummary_resume o w =
  (inr tt,
   World (State (prompt (ui w1)) None false
            (message_or e (lit "Unable to reach the research service.")))
         (calls w1) (pending w1)).
Proof.
  intros H. unfold fetchSummary_resume, try_finally, try_catch.
  rewrite H. reflexivity.
Qed.

(** How a request ends when the [try] block completes. *)
Lemma resume_after_completion (o : outcome) (w w1 : world) :
  try_block o w = (inr tt, w1) ->
  fetchSummary_resume o w =
  (inr tt,
   World (State (prompt (ui w1)) (response (ui w1)) false (error (ui w1)))
         (calls w1) (pending w1)).
Proof.
  intros H. unfold fetchSummary_resume, try_finally, try_catch.
  rewrite H. reflexivity.
Qed.

(** The promise of [fetchSummary] never rejects, and the request ends in
    one of two shapes. *)
Lemma resume_cases (o : outcome) (w : world) :
  (exists e, fetchSummary_resume o w =
     (inr tt,
      settled w None (message_or e (lit "Unable to reach the research service."))))
  \/
  (exists r, fetchSummary_resume o w =
     (inr tt, settled w (Some r) (error (ui w)))).
Proof.
  destruct (try_block_cases o w) as [[e H]|[r H]].
  - left. exists e. rewrite (resume_after_throw _ _ _ _ H). reflexivity.
  - right. exists r. rewrite (resume_after_completion _ _ _ H). reflexivity.
Qed.

Lemma message_or_nonempty (e : exn) (fallback : js_string) :
  fallback <> [] -> message_or e fallback <> [].
Proof.
  intros H. unfold message_or.
  destruct (message e) as [[|c m]|]; simpl; try exact H. discriminate.
Qed.

(** *** Successful responses *)

(** The end of a request whose response is 2xx with a JSON body other than
    [null]. *)
Lemma resume_success (res : http_response) (data : json host) (w : world) :
  ok res = true -> res_json res = inr data -> data <> JNull ->
  fetchSummary_resume (Resolved res) w =
  (inr tt,
   settled w
     (Some (Result
        (nullish_or (field data (lit "first_answer"))
           (JStr (lit "No title returned")))
        (nullish_or (field data (lit "second_answer"))
           (JStr (lit "No summary available for this topic yet.")))))
     (error (ui w))).
Proof.
  intros Hok Hj Hn.
  pose proof (ok_branch_sets_result res data (drained w) Hj Hn) as Hb.
  assert (H : try_block (Resolved res) w = ok_branch res (drained w)).
  { unfold try_block, bind, fetch_settled. rewrite Hok. reflexivity. }
  rewrite Hb in H.
  rewrite (resume_after_completion _ _ _ H). reflexivity.
Qed.

Lemma result_card_shown (w : world) (t s : json host) (err : js_string) :
  In (ResultCard t s) (results_panel (ui (settled w (Some (Result t s)) err))).
Proof.
  unfold results_panel, settled, hasResult; simpl.
  apply in_or_app; right. left. reflexivity.
Qed.

Lemma App_after_success
    (w : world) (t s : json host) (a b : js_string) (err : js_string) :
  child_text t = Some a -> child_text s = Some b ->
  App (ui (settled w (Some (Result t s)) err))
  = Some (View (query_panel (ui (settled w (Some (Result t s)) err)))
            ((if is_empty err then [] else [ShownError err])
             ++ [ShownResult a b])
            footnote_url).
Proof.
  intros Ha Hb. unfold App, results_panel, settled, hasResult. simpl.
  destruct err; simpl; rewrite Ha, Hb; reflexivity.
Qed.

(** C4, as amended.  For every 2xx response whose JSON body is not [null]
    and whose [first_answer] and [second_answer] are strings where they are
    present and not [null], the page displays the result card; the
    displayed title is the body's [first_answer], or "No title returned"
    when that field is absent or [null], and the displayed summary is the
    body's [second_answer], or "No summary available for this topic yet."
    when that field is absent or [null].  The card is the whole panel when
    the error was empty, as it is after every dispatch. *)
Theorem success_sets_title_and_summary
    (res : http_response) (data : json host) (w : world) :
  ok res = true -> res_json res = inr data -> data <> JNull ->
  text_or_missing (field data (lit "first_answer")) ->
  text_or_missing (field data (lit "second_answer")) ->
  exists t s : js_string,
    response (ui (snd (fetchSummary_resume (Resolved res) w)))
      = Some (Result (JStr t) (JStr s)) /\
    option_map panel (App (ui (snd (fetchSummary_resume (Resolved res) w))))
      = Some ((if is_empty (error (ui w)) then []
               else [ShownError (error (ui w))]) ++ [ShownResult t s]) /\
    (error (ui w) = [] ->
     option_map panel (App (ui (snd (fetchSummary_resume (Resolved res) w))))
       = Some [ShownResult t s]) /\
    (forall x, field data (lit "first_answer") = Some (JStr x) -> t = x) /\
    (field data (lit "first_answer") = None \/
     field data (lit "first_answer") = Some JNull ->
     t = lit "No title returned") /\
    (forall y, field data (lit "second_answer") = Some (JStr y) -> s = y) /\
    (field data (lit "second_answer") = None \/
     field data (lit "second_answer") = Some JNull ->
     s = lit "No summary available for this topic yet.").
Proof.
  intros Hok Hj Hn H1 H2.
  rewrite (resume_success res data w Hok Hj Hn).
  assert (G1 : exists t,
             nullish_or (field data (lit "first_answer"))
               (JStr (lit "No title returned")) = JStr t /\
             (forall x, field data (lit "first_answer") = Some (JStr x) -> t = x) /\
             (field data (lit "first_answer") = None \/
              field data (lit "first_answer") = Some JNull ->
              t = lit "No title returned")).
  { destruct H1 as [H1|[H1|[x H1]]]; rewrite H1; eexists;
      (split; [reflexivity|]); split;
      try (intros ? [= ->]; reflexivity); try discriminate; try reflexivity.
    intros [G|G]; discriminate G. }
  assert (G2 : exists s,
             nullish_or (field data (lit "second_answer"))
               (JStr (lit "No summary available for this topic yet.")) = JStr s /\
             (forall y, field data (lit "second_answer") = Some (JStr y) -> s = y) /\
             (field data (lit "second_answer") = None \/
              field data (lit "second_answer") = Some JNull ->
              s = lit "No summary available for this topic yet.")).
  { destruct H2 as [H2|[H2|[y H2]]]; rewrite H2; eexists;
      (split; [reflexivity|]); split;
      try (intros ? [= ->]; reflexivity); try discriminate; try reflexivity.
    intros [G|G]; discriminate G. }
  destruct G1 as (t & Et & Ht1 & Ht2). destruct G2 as (s & Es & Hs1 & Hs2).
  rewrite Et, Es. exists t, s. cbn [snd].
  rewrite (App_after_success w (JStr t) (JStr s) t s (error (ui w)) eq_refl eq_refl).
  split; [reflexivity|]. split; [reflexivity|].
  split; [intros He; rewrite He; reflexivity|].
  auto.
Qed.


(** *** Failed requests *)

Lemma truthy_false_unavailable (v : value host) :
  truthy v = false -> available v = None.
Proof.
  destruct v as [[| | |[|c s]| |]|]; simpl; intros H;
    try reflexivity; discriminate.
Qed.

Lemma truthy_textual_available (v : value host) :
  truthy v = true -> textual v ->
  exists c s, v = Some (JStr (c :: s)) /\ available v = Some (c :: s).
Proof.
  intros Ht Hs. destruct (Hs Ht) as [s ->].
  destruct s as [|c s]; [discriminate Ht|].
  exists c, s. split; reflexivity.
Qed.

Lemma json_null_dec (v : json host) : {v = JNull} + {v <> JNull}.
Proof. destruct v; (left; reflexivity) || (right; discriminate). Qed.

Lemma get_defined (v : json host) (key : js_string) :
  v <> JNull -> get v key = inr (field v key).
Proof. destruct v; [congruence | reflexivity ..]. Qed.

(** What the non-2xx branch throws when the fields of the error body are
    strings. *)
Lemma not_ok_branch_text (res : http_response) (w : world) :
  (forall errorBody, res_json res = inr errorBody ->
     textual (field errorBody (lit "detail")) /\
     textual (field errorBody (lit "error"))) ->
  not_ok_branch res w =
  (inl (Thrown (Some (http_error_text (res_json res)))), w).
Proof.
  intros Hs. act_unfold.
  destruct (res_json res) as [e0|errorBody] eqn:Hj; [reflexivity|].
  destruct (Hs errorBody eq_refl) as [Hd He].
  destruct (json_null_dec errorBody) as [->|Hn]; [reflexivity|].
  rewrite !(get_defined _ _ Hn). cbv beta iota.
  unfold http_error_text.
  destruct (truthy (field errorBody (lit "detail"))) eqn:Td.
  { destruct (truthy_textual_available _ Td Hd) as (c & s & Hv & Ha).
    rewrite Ha, Hv. reflexivity. }
  rewrite (truthy_false_unavailable _ Td).
  destruct (truthy (field errorBody (lit "error"))) eqn:Te.
  { destruct (truthy_textual_available _ Te He) as (c & s & Hv & Ha).
    rewrite Ha, Hv. reflexivity. }
  rewrite (truthy_false_unavailable _ Te). reflexivity.
Qed.

Lemma http_error_text_nonempty (b : exn + json host) : http_error_text b <> [].
Proof.
  unfold http_error_text.
  destruct b as [e|errorBody]; [discriminate|].
  destruct (field errorBody (lit "detail")) as [[| | |[|c s]| |]|]; simpl;
    try discriminate;
    destruct (field errorBody (lit "error")) as [[| | |[|c' s']| |]|]; simpl;
    discriminate.
Qed.

Lemma message_or_some (m fallback : js_string) :
  m <> [] -> message_or (Thrown (Some m)) fallback = m.
Proof. destruct m; [congruence | reflexivity]. Qed.

(** C5, as amended.  For every non-2xx response in which the [detail] and
    [error] fields of the body, where present and truthy, are strings, the
    resulting error message is the body's [detail] if it is a non-empty
    string, otherwise its [error] if it is a non-empty string, otherwise
    "Something went wrong. Please try again."; the fallback as well when the
    body is [null] or cannot be parsed. *)
Theorem non_2xx_error_message (res : http_response) (w : world) :
  ok res = false ->
  (forall errorBody, res_json res = inr errorBody ->
     textual (field errorBody (lit "detail")) /\
     textual (field errorBody (lit "error"))) ->
  error (ui (snd (fetchSummary_resume (Resolved res) w)))
    = http_error_text (res_json res).
Proof.
  intros Hok Hs.
  assert (H : try_block (Resolved res) w =
              (inl (Thrown (Some (http_error_text (res_json res)))), drained w)).
  { unfold try_block, bind, fetch_settled. rewrite Hok. simpl.
    apply not_ok_branch_text; exact Hs. }
  rewrite (resume_after_throw _ _ _ _ H). simpl.
  apply message_or_some, http_error_text_nonempty.
Qed.

(** A non-empty string in [detail] is surfaced whatever else the body
    holds. *)
Lemma detail_is_surfaced
    (res : http_response) (errorBody : json host) (x : js_string) (w : world) :
  ok res = false -> res_json res = inr errorBody ->
  field errorBody (lit "detail") = Some (JStr x) -> x <> [] ->
  error (ui (snd (fetchSummary_resume (Resolved res) w))) = x.
Proof.
  intros Hok Hj Hd Hx.
  assert (H : try_block (Resolved res) w = (inl (Thrown (Some x)), drained w)).
  { unfold try_block, bind, fetch_settled. rewrite Hok. simpl.
    act_unfold. rewrite Hj.
    assert (Hg : get errorBody (lit "detail") = inr (Some (JStr x))).
    { destruct errorBody; try discriminate Hd. simpl. simpl in Hd.
      rewrite Hd. reflexivity. }
    rewrite Hg. simpl. destruct x; [congruence|reflexivity]. }
  rewrite (resume_after_throw _ _ _ _ H). simpl.
  apply message_or_some; exact Hx.
Qed.

(** Each failure of [other_failure] makes the [try] block throw its value. *)
Lemma other_failure_throws (o : outcome) (e : exn) (w : world) :
  other_failure o e -> try_block o w = (inl e, drained w).
Proof.
  intros H. destruct H as [e|res e Hok Hj|res Hok Hj];
    unfold try_block, bind, fetch_settled; try rewrite Hok; simpl;
    try reflexivity;
    unfold ok_branch, bind, await; rewrite Hj; reflexivity.
Qed.

(** They are the only ways in which the [try] block throws on anything but
    a non-2xx response. *)
Lemma other_failure_complete (o : outcome) (e : exn) (w w1 : world) :
  try_block o w = (inl e, w1) ->
  (forall res, o = Resolved res -> ok res = true) ->
  other_failure o e.
Proof.
  intros H Hok. destruct o as [e0|res].
  - unfold try_block, bind, fetch_settled in H.
    injection H as -> _. constructor.
  - specialize (Hok res eq_refl).
    unfold try_block, bind, fetch_settled in H. rewrite Hok in H. simpl in H.
    destruct (res_json res) as [e0|data] eqn:Hj.
    + unfold ok_branch, bind, await in H. rewrite Hj in H.
      injection H as -> _. apply body_rejects; assumption.
    + destruct data eqn:Hd.
      2-6: rewrite (ok_branch_sets_result res _ _ Hj) in H by discriminate;
           discriminate H.
      unfold ok_branch, bind, await in H. rewrite Hj in H. simpl in H.
      injection H as <- _. apply body_null; assumption.
Qed.

(** C7. For every failure other than a non-2xx status (the [fetch] promise
    rejects, the body of a 2xx response cannot be read as JSON, or reading
    the fields of a [null] body throws), the error state is the message of
    the thrown value when it has a non-empty one, and "Unable to reach the
    research service." when it has no message or an empty one. *)
Theorem other_failure_message (o : outcome) (e : exn) (w : world) :
  other_failure o e ->
  (forall m, message e = Some m -> m <> [] ->
     error (ui (snd (fetchSummary_resume o w))) = m) /\
  (message e = None \/ message e = Some [] ->
     error (ui (snd (fetchSummary_resume o w)))
       = lit "Unable to reach the research service.").
Proof.
  intros H.
  rewrite (resume_after_throw _ _ _ _ (other_failure_throws o e w H)). simpl.
  unfold message_or. split.
  - intros m Hm Hne. rewrite Hm. destruct m; [congruence|reflexivity].
  - intros [Hm|Hm]; rewrite Hm; reflexivity.
Qed.

(** A request is a failure exactly when its [try] block throws. *)
Lemma failure_throws (o : outcome) (w : world) :
  is_failure o = true -> exists e, try_block o w = (inl e, drained w).
Proof.
  intros H. destruct o as [e|res]; simpl in H.
  - exists e. reflexivity.
  - destruct (ok res) eqn:Hok; simpl in H.
    + destruct (res_json res) as [e|data] eqn:Hj.
      * exists e. apply other_failure_throws, body_rejects; assumption.
      * destruct data; try discriminate H.
        eexists. apply other_failure_throws, body_null; assumption.
    + unfold try_block, bind, fetch_settled. rewrite Hok. simpl.
      apply not_ok_branch_throws.
Qed.

Lemma success_completes (o : outcome) (w : world) :
  is_failure o = false ->
  exists r, fetchSummary_resume o w = (inr tt, settled w (Some r) (error (ui w))).
Proof.
  intros H. destruct o as [e|res]; simpl in H; [discriminate|].
  apply orb_false_iff in H. destruct H as [Hok H].
  apply negb_false_iff in Hok.
  destruct (res_json res) as [e|data] eqn:Hj; [discriminate|].
  eexists. apply (resume_success res data w Hok Hj).
  intros ->; discriminate.
Qed.

(** C10. For every request that ends in failure (a non-2xx status or any
    thrown error) the [catch] block sets the result to [null] together with
    the error message: afterwards the result is absent, the error is the
    non-empty message of the caught value or its fallback, and the panel is
    the error card alone, with no result card. *)
Theorem failure_discards_result (o : outcome) (w : world) :
  is_failure o = true ->
  exists e,
    fst (try_block o w) = inl e /\
    snd (catch_block e (snd (try_block o w)))
      = World (State (prompt (ui w)) None (isLoading (ui w))
                 (message_or e (lit "Unable to reach the research service.")))
              (calls w) (Nat.pred (pending w)) /\
    response (ui (snd (fetchSummary_resume o w))) = None /\
    error (ui (snd (fetchSummary_resume o w)))
      = message_or e (lit "Unable to reach the research service.") /\
    results_panel (ui (snd (fetchSummary_resume o w)))
      = [ErrorCard (message_or e (lit "Unable to reach the research service."))] /\
    existsb is_result_card
      (results_panel (ui (snd (fetchSummary_resume o w)))) = false.
Proof.
  intros H. destruct (failure_throws o w H) as [e He].
  exists e. rewrite (resume_after_throw _ _ _ _ He), He. simpl.
  assert (Hne : message_or e (lit "Unable to reach the research service.") <> [])
    by (apply message_or_nonempty; discriminate).
  repeat split.
  all: unfold results_panel, hasResult; simpl.
  all: rewrite (is_empty_false _ Hne); reflexivity.
Qed.

(** *** Loading *)

(** C6. For every submission whose trimmed text is not empty the loading
    flag is raised at dispatch, and for every outcome of the request
    (success, non-2xx status, transport or parse failure) [fetchSummary]
    ends normally with the loading flag down and no loading indicator in the
    panel. *)
Theorem loading_cleared_after_request
    (query : js_string) (w : world) (o : outcome) :
  trim query <> [] ->
  isLoading (ui (snd (fetchSummary query w))) = true /\
  fst (fetchSummary_resume o (snd (fetchSummary query w))) = inr tt /\
  isLoading (ui (snd (fetchSummary_resume o (snd (fetchSummary query w)))))
    = false /\
  ~ In LoadingCard
      (results_panel
         (ui (snd (fetchSummary_resume o (snd (fetchSummary query w)))))).
Proof.
  intros H. rewrite (fetchSummary_dispatches query w H).
  split; [reflexivity|].
  match goal with |- context [fetchSummary_resume o ?x] => set (w1 := x) end.
  destruct (resume_cases o w1) as [[e He]|[r He]]; rewrite He; simpl.
  all: split; [reflexivity|]; split; [reflexivity|].
  all: unfold results_panel, hasResult; simpl.
  - destruct (is_empty (message_or e _)); simpl; intuition discriminate.
  - intuition discriminate.
Qed.

(** *** Suggestions *)

(** C8. Clicking a suggestion sets the prompt to its text and then does
    exactly what typing that text into the input and submitting the form
    does: the two paths return the same completion and the same world
    (state, [fetch] calls, pending promises), and both are the call
    [fetchSummary text] on the state whose prompt is [text]. *)
Theorem suggestion_is_manual_submission (text : js_string) (w : world) :
  handleSuggestion text w = handleSubmit (snd (onChange text w)) /\
  handleSuggestion text w = fetchSummary text (snd (setPrompt text w)) /\
  prompt (ui (snd (setPrompt text w))) = text /\
  prompt (ui (snd (handleSuggestion text w))) = text.
Proof.
  repeat split.
  unfold handleSuggestion, bind, setPrompt, on_ui, fetchSummary. simpl.
  destruct (is_empty (trim text)); reflexivity.
Qed.

(** The same at the level of events: a click on the [i]-th pill is the
    change of the input to that suggestion followed by a submit. *)
Lemma suggest_is_change_submit (i : nat) (w : world) :
  i < List.length suggestions ->
  run [Suggest i] w = run [Change (nth i suggestions []); Submit] w.
Proof.
  intros Hi. apply Nat.ltb_lt in Hi.
  unfold run, step, enabled, dispatch. rewrite Hi, andb_true_r.
  generalize (nth i suggestions []); intros text.
  destruct (isLoading (ui w)) eqn:Hl; cbn [negb]; [reflexivity|].
  unfold handleSuggestion, handleSubmit, bind, onChange, setPrompt, on_ui.
  cbn [snd ui isLoading prompt]. rewrite !Hl. reflexivity.
Qed.

(** *** Reachable states and what the panel shows *)

Lemma fetchSummary_consistent (query prompt0 : js_string) (w : world) :
  consistent w -> isLoading (ui w) = false ->
  consistent
    (snd (fetchSummary query
            (World (State prompt0 (response (ui w)) (isLoading (ui w))
                      (error (ui w))) (calls w) (pending w)))).
Proof.
  intros [(Hl & _)|(Hl & Hp & He)] Hidle; [congruence|].
  unfold fetchSummary.
  destruct (is_empty (trim query)); simpl.
  - right. rewrite Hl. auto.
  - left. rewrite Hp. auto.
Qed.

Lemma step_consistent (e : event) (w w' : world) :
  consistent w -> step e w = Some w' -> consistent w'.
Proof.
  intros Hc. unfold step.
  destruct (enabled e w) eqn:Hen; [|discriminate].
  intros [= <-].
  destruct e as [text| |i|o]; simpl in Hen.
  - apply negb_true_iff in Hen.
    destruct Hc as [(Hl & _)|(Hl & Hp & He)]; [congruence|].
    right. simpl. auto.
  - apply negb_true_iff in Hen.
    unfold dispatch, handleSubmit.
    destruct w as [[p r l err] c n].
    exact (fetchSummary_consistent p p _ Hc Hen).
  - apply andb_true_iff in Hen. destruct Hen as [Hen _].
    apply negb_true_iff in Hen.
    unfold dispatch, handleSuggestion, bind, setPrompt, on_ui.
    exact (fetchSummary_consistent _ _ _ Hc Hen).
  - apply Nat.ltb_lt in Hen.
    destruct Hc as [(Hl & Hp & He)|(Hl & Hp & _)]; [|lia].
    unfold dispatch.
    destruct (resume_cases o w) as [[x Hx]|[x Hx]]; rewrite Hx;
      right; unfold settled; simpl; rewrite Hp; auto.
Qed.

Lemma run_consistent (es : list event) (w w' : world) :
  consistent w -> run es w = Some w' -> consistent w'.
Proof.
  revert w. induction es as [|e es IH]; simpl; intros w Hc H.
  - injection H as <-. exact Hc.
  - destruct (step e w) as [w1|] eqn:Hs; [|discriminate].
    exact (IH w1 (step_consistent e w w1 Hc Hs) H).
Qed.

Lemma reachable_consistent (w : world) : reachable w -> consistent w.
Proof.
  intros [es H]. apply (run_consistent es initial w); [|exact H].
  right. simpl. auto.
Qed.

Lemma consistent_panel (w : world) :
  consistent w -> panel_shape (results_panel (ui w)).
Proof.
  unfold results_panel, hasResult.
  intros [(Hl & _ & He)|(Hl & _ & H)]; rewrite Hl.
  - rewrite He. simpl. destruct (response (ui w)); constructor.
  - simpl. destruct (response (ui w)) as [r|] eqn:Hr.
    + destruct H as [H|[H|H]]; [discriminate| |]; rewrite H; simpl; constructor.
    + destruct (error (ui w)) as [|c m] eqn:He; simpl; constructor.
      discriminate.
Qed.

(** Every reachable panel is a single card, or the validation message
    above the card of an earlier result. *)
Lemma reachable_panel (w : world) :
  reachable w -> panel_shape (results_panel (ui w)).
Proof. intros H. apply consistent_panel, reachable_consistent, H. Qed.

(** While the page is reachable a request is pending exactly when the
    loading flag is up, and never more than one. *)
Lemma reachable_single_request (w : world) :
  reachable w -> pending w = if isLoading (ui w) then 1 else 0.
Proof.
  intros H. destruct (reachable_consistent w H) as [(Hl & Hp & _)|(Hl & Hp & _)];
    rewrite Hl, Hp; reflexivity.
Qed.

End Properties.

(** * Beyond the specification: the rest of the component *)

Section Coverage.

Context {host : Host}.

(** *** What [trim] removes *)

Lemma trimStart_split (s : js_string) :
  exists pre, s = pre ++ trimStart s /\ forallb is_space pre = true.
Proof.
  induction s as [|c s (pre & H1 & H2)]; simpl.
  - exists []. split; reflexivity.
  - destruct (is_space c) eqn:E.
    + exists (c :: pre). simpl. rewrite E. split; [f_equal; exact H1 | exact H2].
    + exists []. split; reflexivity.
Qed.

Lemma trimEnd_split (s : js_string) :
  exists post, s = trimEnd s ++ post /\ forallb is_space post = true.
Proof.
  destruct (trimStart_split (rev s)) as (pre & H1 & H2).
  exists (rev pre). split.
  - unfold trimEnd. rewrite <- rev_app_distr, <- H1, rev_involutive. reflexivity.
  - rewrite forallb_rev. exact H2.
Qed.

Lemma trim_split (s : js_string) :
  exists pre post,
    s = pre ++ trim s ++ post /\
    forallb is_space pre = true /\ forallb is_space post = true.
Proof.
  destruct (trimStart_split s) as (pre & H1 & H2).
  destruct (trimEnd_split (trimStart s)) as (post & H3 & H4).
  exists pre, post. unfold trim. rewrite <- H3. auto.
Qed.

Lemma trimStart_starts_clean (s : js_string) : starts_clean (trimStart s) = true.
Proof.
  induction s as [|c s IH]; simpl; [reflexivity|].
  destruct (is_space c) eqn:E; [exact IH|]. simpl. rewrite E. reflexivity.
Qed.

Lemma trimStart_fixed (s : js_string) : starts_clean s = true -> trimStart s = s.
Proof.
  destruct s as [|c s]; simpl; [reflexivity|].
  destruct (is_space c); [discriminate | reflexivity].
Qed.

Lemma trimEnd_ends_clean (s : js_string) : ends_clean (trimEnd s) = true.
Proof.
  unfold ends_clean, trimEnd. rewrite rev_involutive.
  apply trimStart_starts_clean.
Qed.

Lemma trimEnd_fixed (s : js_string) : ends_clean s = true -> trimEnd s = s.
Proof.
  unfold ends_clean, trimEnd. intros H.
  rewrite (trimStart_fixed _ H). apply rev_involutive.
Qed.

Lemma trimEnd_starts_clean (s : js_string) :
  starts_clean s = true -> starts_clean (trimEnd s) = true.
Proof.
  intros H. destruct (trimEnd_split s) as (post & H1 & _).
  destruct (trimEnd s) as [|c r]; [reflexivity|].
  rewrite H1 in H. exact H.
Qed.

Lemma trim_clean (s : js_string) :
  starts_clean (trim s) = true /\ ends_clean (trim s) = true.
Proof.
  unfold trim. split.
  - apply trimEnd_starts_clean, trimStart_starts_clean.
  - apply trimEnd_ends_clean.
Qed.

Lemma trim_fixed (s : js_string) :
  starts_clean s = true -> ends_clean s = true -> trim s = s.
Proof.
  intros H1 H2. unfold trim. rewrite (trimStart_fixed _ H1).
  apply trimEnd_fixed, H2.
Qed.

Lemma forallb_space_false (s : js_string) :
  forallb is_space s = false <-> exists c, In c s /\ is_space c = false.
Proof.
  induction s as [|c s IH]; simpl.
  - split; [discriminate | intros (c & [] & _)].
  - destruct (is_space c) eqn:E; simpl.
    + rewrite IH. split.
      * intros (d & Hd & Hs). exists d. auto.
      * intros (d & [<-|Hd] & Hs); [congruence|]. exists d. auto.
    + split; [|reflexivity]. intros _. exists c. auto.
Qed.

(** The validation path leaves the log and the pending count alone. *)
Lemma fetchSummary_rejects (query : js_string) (w : world) :
  trim query = [] ->
  calls (snd (fetchSummary query w)) = calls w /\
  pending (snd (fetchSummary query w)) = pending w /\
  ui (snd (fetchSummary query w))
    = State (prompt (ui w)) (response (ui w)) (isLoading (ui w))
        (lit "Enter a research topic to explore.").
Proof.
  intros H. unfold fetchSummary. rewrite H. simpl. repeat split.
Qed.

(** *** The request *)

(** X1. The prompt that is posted is the submitted text without the white
    space at its two ends, and nothing else is removed: the text is
    [pre ++ t ++ post] with [pre] and [post] white space only, [t] neither
    begins nor ends with white space, and the call added to the log is the
    POST of [{prompt: t}]. *)
Theorem posted_prompt_is_core (query : js_string) (w : world) :
  trim query <> [] ->
  exists pre t post,
    query = pre ++ t ++ post /\
    forallb is_space pre = true /\ forallb is_space post = true /\
    starts_clean t = true /\ ends_clean t = true /\
    calls (snd (fetchSummary query w))
      = Request API_URL (lit "POST")
          [(lit "Content-Type", lit "application/json")]
          (JObj [(lit "prompt", JStr t)]) :: calls w.
Proof.
  intros H. destruct (trim_split query) as (pre & post & H1 & H2 & H3).
  exists pre, (trim query), post.
  destruct (trim_clean query) as [H4 H5].
  rewrite (fetchSummary_dispatches query w H).
  repeat split; assumption.
Qed.

(** X2. [fetchSummary] makes a request exactly when the text has a code
    unit that is not white space; it then makes exactly one. *)
Theorem request_iff_not_blank (query : js_string) (w : world) :
  (calls (snd (fetchSummary query w)) <> calls w <->
   exists c, In c query /\ is_space c = false) /\
  (calls (snd (fetchSummary query w)) <> calls w ->
   List.length (calls (snd (fetchSummary query w))) = S (List.length (calls w))).
Proof.
  rewrite <- forallb_space_false.
  destruct (trim query) as [|c t] eqn:Ht.
  - assert (Hb : forallb is_space query = true) by (apply trim_nil_iff, Ht).
    destruct (fetchSummary_rejects query w Ht) as [Hc _].
    rewrite Hc, Hb. split; [split|]; intros H; congruence.
  - assert (Hn : trim query <> []) by (rewrite Ht; discriminate).
    assert (Hb : forallb is_space query = false).
    { destruct (forallb is_space query) eqn:E; [|reflexivity].
      apply trim_nil_iff in E. congruence. }
    rewrite (fetchSummary_dispatches query w Hn). simpl.
    split; [split|]; intros _; try reflexivity; try exact Hb.
    intros Heq. apply (f_equal (@List.length _)) in Heq. simpl in Heq. lia.
Qed.

(** *** The completion of a request depends on the answer only *)

Lemma not_ok_branch_pure (res : http_response) :
  exists e, forall w, not_ok_branch res w = (inl e, w).
Proof.
  unfold not_ok_branch, try_catch, bind, ret, throw, await.
  destruct (res_json res) as [e0|errorBody]; simpl.
  - eexists; intros w; reflexivity.
  - destruct (get errorBody (lit "detail")) as [e0|d]; simpl.
    + eexists; intros w; reflexivity.
    + destruct (truthy d).
      * destruct (new_Error d); eexists; intros w; reflexivity.
      * destruct (get errorBody (lit "error")) as [e0|e1]; simpl.
        -- eexists; intros w; reflexivity.
        -- destruct (truthy e1); [destruct (new_Error e1)|];
             eexists; intros w; reflexivity.
Qed.

(** The [try] block throws a value, or sets a result, that the outcome of
    the request determines. *)
Lemma try_block_pure (o : outcome) :
  exists c : exn + result,
    forall w,
      try_block o w =
      match c with
      | inl e => (inl e, drained w)
      | inr r =>
          (inr tt,
           World (State (prompt (ui w)) (Some r) (isLoading (ui w))
                    (error (ui w)))
                 (calls w) (Nat.pred (pending w)))
      end.
Proof.
  destruct o as [e|res].
  - exists (inl e). intros w. reflexivity.
  - destruct (ok res) eqn:Hok.
    + destruct (res_json res) as [e|data] eqn:Hj.
      * exists (inl e). intros w.
        apply other_failure_throws, body_rejects; assumption.
      * destruct (json_null_dec data) as [->|Hn].
        -- eexists (inl _). intros w.
           apply other_failure_throws, body_null; assumption.
        -- eexists (inr _). intros w.
           unfold try_block, bind, fetch_settled. rewrite Hok. simpl.
           rewrite (ok_branch_sets_result res data _ Hj Hn). reflexivity.
    + destruct (not_ok_branch_pure res) as [e He].
      exists (inl e). intros w.
      unfold try_block, bind, fetch_settled. rewrite Hok. simpl. apply He.
Qed.

Lemma resume_pure (o : outcome) :
  exists c : exn + result,
    forall w,
      fetchSummary_resume o w =
      (inr tt,
       match c with
       | inl e =>
           settled w None
             (message_or e (lit "Unable to reach the research service."))
       | inr r => settled w (Some r) (error (ui w))
       end).
Proof.
  destruct (try_block_pure o) as [[e|r] H]; [exists (inl e) | exists (inr r)];
    intros w.
  - rewrite (resume_after_throw _ _ _ _ (H w)). reflexivity.
  - rewrite (resume_after_completion _ _ _ (H w)). reflexivity.
Qed.

(** X3. The result that was in the state while a request was in flight
    leaves no trace: the request ends in the same world whatever that
    result was, so an earlier answer is never shown again once a new
    request has settled. *)
Theorem earlier_result_leaves_no_trace
    (o : outcome) (w : world) (r0 : option result) :
  snd (fetchSummary_resume o (snd (setResponse r0 w)))
  = snd (fetchSummary_resume o w).
Proof.
  destruct (resume_pure o) as [[e|r] H]; rewrite !H; reflexivity.
Qed.

(** X4. No handler lets an exception escape: the change of the input, the
    submission, the click on a suggestion and the rest of [fetchSummary]
    after the answer all complete normally, so the promise of
    [fetchSummary] is never rejected. *)
Theorem handlers_never_throw (e : event) (w : world) :
  fst (dispatch e w) = inr tt.
Proof.
  assert (Hf : forall q w1, fst (fetchSummary q w1) = inr tt).
  { intros q w1. unfold fetchSummary.
    destruct (is_empty (trim q)); reflexivity. }
  destruct e as [text| |i|o]; unfold dispatch.
  - reflexivity.
  - apply Hf.
  - unfold handleSuggestion, bind, setPrompt, on_ui. cbv beta iota. apply Hf.
  - destruct (resume_pure o) as [c H]. rewrite H. reflexivity.
Qed.

(** X5. No retries: the end of a request, whatever its outcome, makes no
    call to [fetch], and neither does typing; a submission or a click on a
    suggestion makes at most one, and then one more promise is pending. *)
Theorem at_most_one_request_per_action (e : event) (w w' : world) :
  step e w = Some w' ->
  match e with
  | Change _ | Settle _ => calls w' = calls w
  | Submit | Suggest _ =>
      (calls w' = calls w /\ pending w' = pending w) \/
      (exists t, calls w' = ask t :: calls w /\ pending w' = S (pending w))
  end.
Proof.
  unfold step. destruct (enabled e w); [|discriminate].
  intros [= <-].
  destruct e as [text| |i|o]; unfold dispatch.
  - reflexivity.
  - unfold handleSubmit.
    destruct (trim (prompt (ui w))) as [|c t] eqn:Ht.
    + left. destruct (fetchSummary_rejects _ w Ht) as (H1 & H2 & _). auto.
    + right. exists (trim (prompt (ui w))).
      rewrite fetchSummary_dispatches by (rewrite Ht; discriminate).
      split; reflexivity.
  - unfold handleSuggestion, bind, setPrompt, on_ui. cbv beta iota.
    set (text := nth i suggestions []).
    match goal with |- context [fetchSummary text ?x] => set (w1 := x) end.
    destruct (trim text) as [|c t] eqn:Ht.
    + left. destruct (fetchSummary_rejects _ w1 Ht) as (H1 & H2 & _).
      rewrite H1, H2. split; reflexivity.
    + right. exists (trim text).
      rewrite fetchSummary_dispatches by (rewrite Ht; discriminate).
      split; reflexivity.
  - destruct (resume_pure o) as [[x|x] H]; rewrite H; reflexivity.
Qed.

Lemma App_after_failure (w : world) (msg : js_string) :
  msg <> [] ->
  App (ui (settled w None msg))
  = Some (View (query_panel (ui (settled w None msg))) [ShownError msg]
            footnote_url).
Proof.
  intros H. unfold App, results_panel, settled, hasResult. simpl.
  rewrite (is_empty_false _ H). reflexivity.
Qed.

Lemma App_after_unrenderable (w : world) (r : result) (err : js_string) :
  unrenderable r -> App (ui (settled w (Some r) err)) = None.
Proof.
  intros H. unfold App, results_panel, settled, hasResult. simpl.
  destruct err; simpl.
  all: destruct H as [H|H]; rewrite H; [|destruct (child_text (title r))];
    reflexivity.
Qed.

(** X6. A completed submission ends, whatever was shown before it, in one
    of three ways: the page displays exactly the card of the new result,
    with no error; or the title or the summary of the new result holds an
    object, rendering the card throws and the page is unmounted; or the
    page displays exactly the card of a non-empty error message, with no
    result. *)
Theorem completed_request_one_card_or_unmounted
    (query : js_string) (w : world) (o : outcome) :
  trim query <> [] ->
  (exists t s,
     ui (snd (fetchSummary_resume o (snd (fetchSummary query w))))
       = State (prompt (ui w)) (Some (Result t s)) false [] /\
     ((exists a b,
         child_text t = Some a /\ child_text s = Some b /\
         option_map panel
           (App (ui (snd (fetchSummary_resume o (snd (fetchSummary query w))))))
           = Some [ShownResult a b]) \/
      (unrenderable (Result t s) /\
       App (ui (snd (fetchSummary_resume o (snd (fetchSummary query w)))))
         = None))) \/
  (exists msg,
     msg <> [] /\
     ui (snd (fetchSummary_resume o (snd (fetchSummary query w))))
       = State (prompt (ui w)) None false msg /\
     option_map panel
       (App (ui (snd (fetchSummary_resume o (snd (fetchSummary query w))))))
       = Some [ShownError msg]).
Proof.
  intros H. rewrite (fetchSummary_dispatches query w H).
  destruct (resume_pure o) as [[e|[t s]] Hr]; rewrite Hr; cbn [snd].
  - right. eexists. split; [|split; [reflexivity|]].
    + apply message_or_nonempty. discriminate.
    + rewrite App_after_failure by (apply message_or_nonempty; discriminate).
      reflexivity.
  - left. exists t, s. split; [reflexivity|].
    destruct (child_text t) as [a|] eqn:Ha; [destruct (child_text s) as [b|] eqn:Hb|].
    + left. exists a, b. split; [reflexivity|]. split; [reflexivity|].
      cbn [ui error]. rewrite (App_after_success _ t s a b [] Ha Hb). reflexivity.
    + right. assert (U : unrenderable (Result t s)) by (right; exact Hb).
      split; [exact U|]. apply App_after_unrenderable, U.
    + right. assert (U : unrenderable (Result t s)) by (left; exact Ha).
      split; [exact U|]. apply App_after_unrenderable, U.
Qed.

(** X7. A 2xx response whose JSON body is neither an object nor [null] (a
    string, a number, a boolean, an array) has no fields to read: the
    result gets both default texts. *)
Theorem non_object_body_gets_defaults
    (res : http_response) (data : json host) (w : world) :
  ok res = true -> res_json res = inr data ->
  is_object data = false -> data <> JNull ->
  response (ui (snd (fetchSummary_resume (Resolved res) w)))
  = Some (Result (JStr (lit "No title returned"))
                 (JStr (lit "No summary available for this topic yet."))).
Proof.
  intros Hok Hj Ho Hn.
  rewrite (resume_success res data w Hok Hj Hn). simpl.
  destruct data; try discriminate Ho; try congruence; reflexivity.
Qed.

(** X8. In the body of a non-2xx response [error] is read only when
    [detail] is falsy (absent, [null], [false], zero or the empty string):
    then a non-empty string in [error] is the message, and when [error] is
    falsy as well the message is "Something went wrong. Please try again.",
    whatever else the body holds. *)
Theorem error_field_used_when_detail_falsy
    (res : http_response) (errorBody : json host) (w : world) :
  ok res = false -> res_json res = inr errorBody ->
  truthy (field errorBody (lit "detail")) = false ->
  (forall y, field errorBody (lit "error") = Some (JStr y) -> y <> [] ->
     error (ui (snd (fetchSummary_resume (Resolved res) w))) = y) /\
  (truthy (field errorBody (lit "error")) = false ->
     error (ui (snd (fetchSummary_resume (Resolved res) w)))
       = lit "Something went wrong. Please try again.").
Proof.
  intros Hok Hj Hd.
  assert (Hb : forall x,
     not_ok_branch res (drained w) = (inl (Thrown (Some x)), drained w) ->
     x <> [] ->
     error (ui (snd (fetchSummary_resume (Resolved res) w))) = x).
  { intros x Hx Hne.
    assert (H : try_block (Resolved res) w = (inl (Thrown (Some x)), drained w)).
    { unfold try_block, bind, fetch_settled. rewrite Hok. exact Hx. }
    rewrite (resume_after_throw _ _ _ _ H). simpl.
    apply message_or_some, Hne. }
  destruct (json_null_dec errorBody) as [->|Hn].
  - split.
    + intros y Hy. discriminate Hy.
    + intros _. apply Hb; [|discriminate].
      unfold not_ok_branch, try_catch, bind, ret, throw, await.
      rewrite Hj. reflexivity.
  - split.
    + intros y Hy Hne. apply Hb; [|exact Hne].
      unfold not_ok_branch, try_catch, bind, ret, throw, await.
      rewrite Hj, !(get_defined _ _ Hn). cbv beta iota.
      rewrite Hd, Hy. destruct y; [congruence|reflexivity].
    + intros He. apply Hb; [|discriminate].
      unfold not_ok_branch, try_catch, bind, ret, throw, await.
      rewrite Hj, !(get_defined _ _ Hn). cbv beta iota.
      rewrite Hd, He. reflexivity.
Qed.

(** *** Invariants of the page *)

Lemma ask_well_formed (query : js_string) :
  trim query <> [] -> well_formed (ask (trim query)).
Proof.
  intros H. destruct (trim_clean query) as [H1 H2].
  unfold well_formed, footnote_url, ask. simpl.
  repeat split. exists (trim query). auto.
Qed.

Lemma fetchSummary_well_formed (query : js_string) (w : world) :
  Forall well_formed (calls w) ->
  Forall well_formed (calls (snd (fetchSummary query w))).
Proof.
  intros H. destruct (trim query) as [|c t] eqn:Ht.
  - destruct (fetchSummary_rejects query w Ht) as [Hc _]. rewrite Hc. exact H.
  - assert (Hn : trim query <> []) by (rewrite Ht; discriminate).
    rewrite (fetchSummary_dispatches query w Hn). simpl.
    constructor; [apply ask_well_formed, Hn | exact H].
Qed.

Lemma step_well_formed (e : event) (w w' : world) :
  Forall well_formed (calls w) -> step e w = Some w' ->
  Forall well_formed (calls w').
Proof.
  intros H. unfold step. destruct (enabled e w); [|discriminate].
  intros [= <-]. destruct e as [text| |i|o]; unfold dispatch.
  - exact H.
  - apply fetchSummary_well_formed, H.
  - unfold handleSuggestion, bind, setPrompt, on_ui. cbv beta iota.
    apply fetchSummary_well_formed, H.
  - destruct (resume_pure o) as [[x|x] Hr]; rewrite Hr; exact H.
Qed.

(** X9. Every request the page ever makes is a POST to the address the
    footnote prints, with the one header [Content-Type: application/json]
    and a body [{prompt: t}] in which [t] is not empty and neither begins
    nor ends with white space. *)
Theorem every_request_is_well_formed (w : world) :
  reachable w -> Forall well_formed (calls w).
Proof.
  intros [es H].
  assert (G : forall es w0 w1, Forall well_formed (calls w0) ->
                run es w0 = Some w1 -> Forall well_formed (calls w1)).
  { clear. induction es as [|e es IH]; simpl; intros w0 w1 H0 H.
    - injection H as <-. exact H0.
    - destruct (step e w0) as [w2|] eqn:Hs; [|discriminate].
      exact (IH w2 w1 (step_well_formed e w0 w2 H0 Hs) H). }
  apply (G es initial w); [constructor | exact H].
Qed.

Lemma App_form (s : state) (v : view) : App s = Some v -> form v = query_panel s.
Proof.
  unfold App. destruct (show_all (results_panel s)); [|discriminate].
  intros [= <-]. reflexivity.
Qed.

Lemma show_all_fails (cs : list card) :
  show_all cs = None ->
  exists t s, In (ResultCard t s) cs /\
              (child_text t = None \/ child_text s = None).
Proof.
  induction cs as [|c cs IH]; simpl; [discriminate|].
  destruct (show_card c) as [x|] eqn:Hc.
  - destruct (show_all cs); [discriminate|].
    intros _. destruct (IH eq_refl) as (t & s & Hin & Hu).
    exists t, s. auto.
  - intros _. destruct c as [msg| |t s|]; try discriminate Hc.
    exists t, s. split; [left; reflexivity|].
    simpl in Hc. destruct (child_text t); [|left; reflexivity].
    destruct (child_text s); [discriminate|right; reflexivity].
Qed.

Lemma result_card_origin (st : state) (t s : json host) :
  In (ResultCard t s) (results_panel st) ->
  isLoading st = false /\ response st = Some (Result t s).
Proof.
  unfold results_panel, hasResult.
  destruct (error st), (isLoading st), (response st) as [[t' s']|]; simpl;
    intuition (try discriminate); match goal with
    | H : ResultCard _ _ = ResultCard _ _ |- _ => injection H as -> ->
    end; reflexivity.
Qed.

(** The page is unmounted exactly by a result that cannot be rendered. *)
Lemma unmounted_page (st : state) :
  App st = None ->
  isLoading st = false /\ exists r, response st = Some r /\ unrenderable r.
Proof.
  unfold App. destruct (show_all (results_panel st)) eqn:E; [discriminate|].
  intros _. destruct (show_all_fails _ E) as (t & s & Hin & Hu).
  destruct (result_card_origin st t s Hin) as [Hl Hr].
  split; [exact Hl|]. exists (Result t s). split; [exact Hr | exact Hu].
Qed.

(** The pages that are really on screen are among the reachable ones, so
    what holds of every reachable world holds of them. *)
Lemma live_run_is_run (es : list event) (w w' : world) :
  live_run es w = Some w' -> run es w = Some w'.
Proof.
  revert w. induction es as [|e es IH]; simpl; intros w H; [exact H|].
  unfold live_step in H. destruct (mounted w); [|discriminate].
  destruct (step e w) as [w1|]; [|discriminate]. apply IH, H.
Qed.

Lemma live_reachable_is_reachable (w : world) :
  live_reachable w -> reachable w.
Proof. intros [es H]. exists es. apply live_run_is_run, H. Qed.

(** X10. On every reachable page at most one request is in flight, and
    while the page is mounted the controls show it: with none pending the
    input, the button and the four pills are enabled and the button reads
    "Generate summary"; with one pending they are all disabled and the
    button reads "Searching...", written with U+2026.  The input always
    holds the prompt. *)
Theorem controls_follow_the_request (w : world) :
  reachable w ->
  pending w <= 1 /\
  forall v, App (ui w) = Some v ->
    (pending w = 0 /\
     form v
       = Controls (prompt (ui w)) false (lit "Generate summary") false
           (map (fun item => (item, false)) suggestions)) \/
    (pending w = 1 /\
     form v
       = Controls (prompt (ui w)) true (lit "Searching" ++ [8230%N]) true
           (map (fun item => (item, true)) suggestions)).
Proof.
  intros H.
  destruct (reachable_consistent w H) as [(Hl & Hp & _)|(Hl & Hp & _)].
  - split; [lia|]. intros v Hv. rewrite (App_form _ _ Hv).
    unfold query_panel. rewrite Hl. right. auto.
  - split; [lia|]. intros v Hv. rewrite (App_form _ _ Hv).
    unfold query_panel. rewrite Hl. left. auto.
Qed.

(** X11. The page cannot stay locked.  Whenever the controls of a
    reachable, mounted page are disabled a request is pending, and however
    it settles nothing is pending afterwards; after every failure (HTTP
    error, network or parse failure) the page is still mounted, and on the
    mounted page the input and the button are enabled again and a new
    submission is taken.  The page is unmounted only by a successful answer
    whose title or summary cannot be rendered. *)
Theorem controls_are_released (w : world) (o : outcome) (v : view) :
  reachable w -> App (ui w) = Some v -> button_disabled (form v) = true ->
  exists w',
    live_step (Settle o) w = Some w' /\
    isLoading (ui w') = false /\
    pending w' = 0 /\
    (forall v', App (ui w') = Some v' ->
       button_disabled (form v') = false /\
       input_disabled (form v') = false /\
       exists w'', live_step Submit w' = Some w'') /\
    (is_failure o = true -> App (ui w') <> None) /\
    (App (ui w') = None ->
       exists r, response (ui w') = Some r /\ unrenderable r).
Proof.
  intros H Hv Hd. rewrite (App_form _ _ Hv) in Hd. simpl in Hd.
  destruct (reachable_consistent w H) as [(Hl & Hp & He)|(Hl & _)];
    [|congruence].
  exists (snd (fetchSummary_resume o w)).
  split.
  { unfold live_step, mounted. rewrite Hv. unfold step, enabled.
    rewrite Hp. reflexivity. }
  assert (Hrel : forall w1 v', isLoading (ui w1) = false ->
            App (ui w1) = Some v' ->
            button_disabled (form v') = false /\
            input_disabled (form v') = false /\
            exists w'', live_step Submit w1 = Some w'').
  { intros w1 v' Hl1 Hv1. rewrite (App_form _ _ Hv1). simpl. rewrite Hl1.
    split; [reflexivity|]. split; [reflexivity|].
    unfold live_step, mounted. rewrite Hv1. unfold step, enabled. rewrite Hl1.
    eexists. reflexivity. }
  destruct (is_failure o) eqn:Hf.
  - destruct (failure_throws o w Hf) as [e Ht].
    set (msg := message_or e (lit "Unable to reach the research service.")).
    assert (Hm : msg <> []) by (apply message_or_nonempty; discriminate).
    assert (Hw : snd (fetchSummary_resume o w) = settled w None msg)
      by (rewrite (resume_after_throw _ _ _ _ Ht); reflexivity).
    rewrite Hw.
    split; [reflexivity|]. split; [simpl; rewrite Hp; reflexivity|].
    split; [intros v' Hv'; apply (Hrel _ v'); [reflexivity | exact Hv']|].
    rewrite (App_after_failure w msg Hm).
    split; [intros _; discriminate | discriminate].
  - destruct (success_completes o w Hf) as [r Hr]. rewrite Hr. cbn [snd].
    split; [reflexivity|]. split; [simpl; rewrite Hp; reflexivity|].
    split; [intros v' Hv'; apply (Hrel _ v'); [reflexivity | exact Hv']|].
    split; [discriminate|].
    intros Hn. destruct (unmounted_page _ Hn) as (_ & r' & Hr' & Hu).
    exists r'. split; assumption.
Qed.

Lemma suggestions_ready (i : nat) :
  i < List.length suggestions ->
  trim (nth i suggestions []) = nth i suggestions [] /\
  nth i suggestions [] <> [].
Proof.
  intros Hi.
  destruct i as [|[|[|[|i]]]]; [| | | |simpl in Hi; lia].
  all: split; [vm_compute; reflexivity | vm_compute; discriminate].
Qed.

(** X12. Each of the four suggestions is a valid prompt that is already
    trimmed: a click on an enabled pill never ends in the validation
    message; it puts the suggestion in the input, clears the error, raises
    the loading flag and posts exactly the text of the suggestion. *)
Theorem suggestion_click_always_posts (i : nat) (w : world) :
  i < List.length suggestions -> isLoading (ui w) = false ->
  step (Suggest i) w
  = Some (World (State (nth i suggestions []) (response (ui w)) true [])
                (ask (nth i suggestions []) :: calls w) (S (pending w))).
Proof.
  intros Hi Hl. destruct (suggestions_ready i Hi) as [Ht Hn].
  unfold step, enabled. rewrite Hl.
  apply Nat.ltb_lt in Hi. rewrite Hi. simpl negb. cbv beta iota.
  unfold dispatch, handleSuggestion, bind, setPrompt, on_ui. cbv beta iota.
  rewrite fetchSummary_dispatches by (rewrite Ht; exact Hn).
  rewrite Ht. reflexivity.
Qed.

(** X13. While a reachable page is mounted its panel is never empty and
    never holds more than two cards; the loading indicator and the
    placeholder are only ever shown alone; two cards are shown only as the
    validation message above a result card.  The page is unmounted only
    when it is not loading and holds a result whose title or summary cannot
    be rendered. *)
Theorem reachable_panel_cards (w : world) :
  reachable w ->
  (forall v, App (ui w) = Some v ->
     panel v <> [] /\
     List.length (panel v) <= 2 /\
     (In ShownLoading (panel v) -> panel v = [ShownLoading]) /\
     (In ShownPlaceholder (panel v) -> panel v = [ShownPlaceholder]) /\
     (List.length (panel v) = 2 ->
      exists t s,
        panel v
          = [ShownError (lit "Enter a research topic to explore.");
             ShownResult t s])) /\
  (App (ui w) = None ->
     isLoading (ui w) = false /\
     exists r, response (ui w) = Some r /\ unrenderable r).
Proof.
  intros H. split; [|apply unmounted_page].
  intros v Hv. pose proof (reachable_panel w H) as Hs.
  unfold App in Hv.
  inversion Hs as [E|E|msg Hm E|t s E|t s E]; rewrite <- E in Hv;
    simpl in Hv;
    try (destruct (child_text t); [|discriminate Hv];
         destruct (child_text s); [|discriminate Hv]);
    injection Hv as <-; simpl.
  all: repeat split; try discriminate; try lia; try reflexivity.
  all: try (intros [G|[G|G]]; try discriminate G; contradiction).
  all: try (intros [G|G]; try discriminate G; contradiction).
  intros _. eexists; eexists; reflexivity.
Qed.

Lemma placeholder_iff_untouched (s : state) :
  In PlaceholderCard (results_panel s) <-> untouched s = true.
Proof.
  unfold results_panel, untouched, hasResult.
  destruct (error s), (isLoading s), (response s); simpl;
    intuition (discriminate || auto).
Qed.

Lemma step_untouched (e : event) (w w' : world) :
  step e w = Some w' ->
  untouched (ui w') = untouched (ui w) && is_change e.
Proof.
  assert (Hf : forall q w1, untouched (ui (snd (fetchSummary q w1))) = false).
  { intros q w1. destruct (trim q) as [|c t] eqn:Ht.
    - destruct (fetchSummary_rejects q w1 Ht) as (_ & _ & Hu). rewrite Hu.
      unfold untouched. simpl. apply andb_false_r.
    - rewrite fetchSummary_dispatches by (rewrite Ht; discriminate).
      reflexivity. }
  unfold step. destruct (enabled e w); [|discriminate].
  intros [= <-]. destruct e as [text| |i|o]; unfold dispatch, is_change.
  - rewrite andb_true_r. reflexivity.
  - rewrite andb_false_r. apply Hf.
  - rewrite andb_false_r.
    unfold handleSuggestion, bind, setPrompt, on_ui. cbv beta iota. apply Hf.
  - rewrite andb_false_r.
    destruct (resume_pure o) as [[x|x] Hr]; rewrite Hr;
      unfold untouched, settled, hasResult; simpl; [|reflexivity].
    rewrite is_empty_false by (apply message_or_nonempty; discriminate).
    reflexivity.
Qed.

(** X14. The placeholder is the display of the untouched page only: it is
    shown exactly as long as nothing but typing has happened, and after the
    first submission or click on a suggestion (valid or not) it never comes
    back. *)
Theorem placeholder_until_first_submission (es : list event) (w : world) :
  run es initial = Some w ->
  (In PlaceholderCard (results_panel (ui w)) <-> forallb is_change es = true).
Proof.
  intros H. rewrite placeholder_iff_untouched.
  assert (G : forall es w0 w1, run es w0 = Some w1 ->
                untouched (ui w1) = untouched (ui w0) && forallb is_change es).
  { clear. induction es as [|e es IH]; simpl; intros w0 w1 H.
    - injection H as <-. rewrite andb_true_r. reflexivity.
    - destruct (step e w0) as [w2|] eqn:Hs; [|discriminate].
      rewrite (IH w2 w1 H), (step_untouched e w0 w2 Hs).
      rewrite andb_assoc. reflexivity. }
  rewrite (G es initial w H). reflexivity.
Qed.

Lemma step_prompt (e : event) (w w' : world) :
  step e w = Some w' -> prompt (ui w') = typed (prompt (ui w)) [e].
Proof.
  assert (Hf : forall q w1, prompt (ui (snd (fetchSummary q w1))) = prompt (ui w1)).
  { intros q w1. unfold fetchSummary.
    destruct (is_empty (trim q)); reflexivity. }
  unfold step. destruct (enabled e w); [|discriminate].
  intros [= <-]. destruct e as [text| |i|o]; unfold dispatch, typed, fold_left.
  - reflexivity.
  - apply Hf.
  - unfold handleSuggestion, bind, setPrompt, on_ui. cbv beta iota.
    rewrite Hf. reflexivity.
  - destruct (resume_pure o) as [[x|x] Hr]; rewrite Hr; reflexivity.
Qed.

(** X15. The input always holds the text that was last typed or last
    chosen among the suggestions: submitting, failing validation and the
    end of a request never clear, trim or otherwise change the prompt. *)
Theorem prompt_is_last_text (es : list event) (w : world) :
  run es initial = Some w ->
  prompt (ui w) = typed [] es /\
  input_value (query_panel (ui w)) = typed [] es.
Proof.
  intros H.
  assert (G : forall es w0 w1, run es w0 = Some w1 ->
                prompt (ui w1) = typed (prompt (ui w0)) es).
  { clear. induction es as [|e es IH]; simpl; intros w0 w1 H.
    - injection H as <-. reflexivity.
    - destruct (step e w0) as [w2|] eqn:Hs; [|discriminate].
      rewrite (IH w2 w1 H), (step_prompt e w0 w2 Hs). reflexivity. }
  split; apply (G es initial w H).
Qed.

End Coverage.

(** * The program at work *)

#[local] Existing Instance chromium.

Example trim_strips_both_ends :
  trim (lit "  quantum computing  ") = lit "quantum computing".
Proof. reflexivity. Qed.

Example trim_strips_unicode_space :
  trim [160; 8232; 65279; 97; 32; 98; 12288; 9]%N = [97; 32; 98]%N.
Proof. reflexivity. Qed.

Example message_or_keeps_message :
  message_or failed_to_fetch (lit "fallback") = lit "Failed to fetch".
Proof. reflexivity. Qed.

Example array_to_string :
  to_string (JArr [JNum (exist _ 1%Z eq_refl : safe_integer); JNull;
                   JStr (lit "x")] : json chromium)
  = inr (lit "1,,x").
Proof. reflexivity. Qed.

(** The example of section 8: the topic is posted, the title and the
    summary of the answer are shown, loading is cleared and there is no
    error. *)
Example quantum_example :
  run (firstn 3 quantum_session) initial = Some answered /\
  results_panel (ui answered)
    = [ResultCard (JStr (lit "Quantum Speedups")) (JStr (lit "..."))] /\
  calls answered
    = [Request (lit "http://127.0.0.1:8000/api/ask/") (lit "POST")
         [(lit "Content-Type", lit "application/json")]
         (JObj [(lit "prompt", JStr (lit "quantum computing"))])].
Proof. repeat split. Qed.

(** A body [{"detail": "X"}] surfaces "X"; a body with neither field, a
    [null] body and an unparsable body surface the fallback. *)
Example detail_X :
  error (ui (snd (fetchSummary_resume (Resolved (detail_reply (lit "X")))
                    initial))) = lit "X" /\
  error (ui (snd (fetchSummary_resume
                    (Resolved (Response 404 (inr (JObj []))) : @outcome chromium)
                    initial)))
    = lit "Something went wrong. Please try again." /\
  error (ui (snd (fetchSummary_resume
                    (Resolved (Response 404 (inr JNull)) : @outcome chromium)
                    initial)))
    = lit "Something went wrong. Please try again." /\
  error (ui (snd (fetchSummary_resume
                    (Resolved (Response 502 (inl failed_to_fetch))
                       : @outcome chromium)
                    initial)))
    = lit "Something went wrong. Please try again.".
Proof. repeat split. Qed.

(** An empty [detail] is not available: the fallback is shown. *)
Example empty_detail_falls_back :
  error (ui (snd (fetchSummary_resume (Resolved (detail_reply [])) initial)))
  = lit "Something went wrong. Please try again.".
Proof. reflexivity. Qed.

(** C3 fails on the code.  Type a topic, submit it, receive a 2xx answer,
    clear the input and submit again: the validation path sets the error and
    leaves the result in place, so the panel shows the error message and the
    result card at the same time. *)
Theorem validation_error_beside_result :
  option_map (fun w => results_panel (ui w)) (run quantum_session initial)
  = Some [ErrorCard (lit "Enter a research topic to explore.");
          ResultCard (JStr (lit "Quantum Speedups")) (JStr (lit "..."))].
Proof. reflexivity. Qed.

(** The claim C2 fails on a world that holds a result: when the POST is
    issued the error is empty but the result is still there. *)
Lemma result_survives_dispatch :
  ~ (error (ui (snd (fetchSummary (lit "quantum error correction") answered)))
       = [] /\
     response (ui (snd (fetchSummary (lit "quantum error correction") answered)))
       = None).
Proof. intros [_ H]. discriminate H. Qed.

(** The claim C4 fails on a 2xx response whose JSON body is [null]: no
    title is shown, default or other; the page displays the error card with
    the engine's TypeError.  It fails as well on a 2xx response whose
    [first_answer] is an object: the result is stored, rendering its title
    throws and the page is unmounted, so no title is displayed either. *)
Lemma null_body_and_object_title_show_no_title :
  option_map
    (fun w => (response (ui w), results_panel (ui w),
               option_map panel (App (ui w))))
    (live_run [Change (lit "quantum computing"); Submit; Settle null_reply]
       initial)
  = Some (None,
          [ErrorCard
             (lit "Cannot read properties of null (reading 'first_answer')")],
          Some [ShownError
                  (lit "Cannot read properties of null (reading 'first_answer')")])
  /\
  option_map (fun w => (option_map title (response (ui w)), App (ui w)))
    (live_run [Change (lit "quantum computing"); Submit;
               Settle (Resolved (Response 200 (inr nested_answer)))]
       initial)
  = Some (Some (JObj [(lit "text", JStr (lit "Quantum Speedups"))]), None).
Proof. split; reflexivity. Qed.

(** After that answer the page takes no further event. *)
Example unmounted_page_is_dead :
  live_run [Change (lit "quantum computing"); Submit;
            Settle (Resolved (Response 200 (inr nested_answer)));
            Change (lit "again")]
    initial = None.
Proof. reflexivity. Qed.

(** The claim C5 fails on a non-2xx response whose [detail] is the empty
    array: the array is truthy and prints as the empty string, so the
    message shown is the fallback of the [catch] block, which is neither the
    [detail], nor the [error], nor "Something went wrong. Please try
    again.". *)
Lemma empty_array_detail_shows_catch_fallback :
  error (ui (snd (fetchSummary_resume
                    (Resolved (Response 500
                       (inr (JObj [(lit "detail", JArr [])]))))
                    (snd (fetchSummary (lit "quantum computing") initial)))))
    = lit "Unable to reach the research service." /\
  lit "Unable to reach the research service."
    <> lit "Something went wrong. Please try again.".
Proof. split; [reflexivity | discriminate]. Qed.

(** * Instances of the theorems *)

Lemma empty_prompt_rejected_locally_witness :
  trim [32; 9; 160]%N = [] /\
  error (ui (snd (fetchSummary [32; 9; 160]%N answered)))
    = lit "Enter a research topic to explore." /\
  calls (snd (fetchSummary [32; 9; 160]%N answered)) = calls answered.
Proof.
  split; [reflexivity|].
  destruct (empty_prompt_rejected_locally [32; 9; 160]%N answered eq_refl)
    as (_ & He & Hc & _).
  split; [exact He | exact Hc].
Defined.

Lemma dispatch_clears_error_keeps_result_witness :
  trim (lit " quantum error correction ") <> [] /\
  response (ui (snd (fetchSummary (lit " quantum error correction ") answered)))
    = response (ui answered) /\
  results_panel (ui (snd (fetchSummary (lit " quantum error correction ") answered)))
    = [LoadingCard].
Proof.
  assert (H : trim (lit " quantum error correction ") <> [])
    by (vm_compute; discriminate).
  split; [exact H|].
  destruct (dispatch_clears_error_keeps_result
              (lit " quantum error correction ") answered H)
    as (_ & _ & Hr & _ & Hp).
  split; [exact Hr | exact Hp].
Defined.

Lemma success_sets_title_and_summary_witness :
  option_map panel
    (App (ui (snd (fetchSummary_resume
                     (Resolved (Response 200 (inr quantum_answer)))
                     searching))))
  = Some [ShownResult (lit "Quantum Speedups") (lit "...")].
Proof.
  assert (Hn : quantum_answer <> JNull) by discriminate.
  assert (H1 : text_or_missing (field quantum_answer (lit "first_answer")))
    by (right; right; eexists; reflexivity).
  assert (H2 : text_or_missing (field quantum_answer (lit "second_answer")))
    by (right; right; eexists; reflexivity).
  destruct (success_sets_title_and_summary
              (Response 200 (inr quantum_answer)) quantum_answer searching
              eq_refl eq_refl Hn H1 H2)
    as (t & s & _ & _ & Hp & Ht & _ & Hs & _).
  rewrite (Hp eq_refl), <- (Ht _ eq_refl), <- (Hs _ eq_refl). reflexivity.
Defined.


Lemma non_2xx_error_message_witness :
  error (ui (snd (fetchSummary_resume
                    (Resolved (detail_reply (lit "Topic is too long."))) initial)))
  = lit "Topic is too long.".
Proof.
  apply (non_2xx_error_message (detail_reply (lit "Topic is too long.")) initial).
  - reflexivity.
  - intros errorBody [= <-]. split.
    + intros _. eexists. reflexivity.
    + intros H. discriminate H.
Defined.

Lemma other_failure_message_witness :
  error (ui (snd (fetchSummary_resume (Rejected failed_to_fetch)
                    (snd (fetchSummary (lit "quantum computing") initial)))))
  = lit "Failed to fetch".
Proof.
  apply (proj1 (other_failure_message
                  (Rejected failed_to_fetch) failed_to_fetch
                  (snd (fetchSummary (lit "quantum computing") initial))
                  (fetch_rejects failed_to_fetch))
           (lit "Failed to fetch") eq_refl).
  discriminate.
Defined.

Lemma failure_discards_result_witness :
  response (ui (snd (fetchSummary_resume
                       (Resolved (detail_reply (lit "Topic is too long.")))
                       answered)))
  = None.
Proof.
  destruct (failure_discards_result
              (Resolved (detail_reply (lit "Topic is too long."))) answered
              eq_refl)
    as (e & _ & _ & H & _).
  exact H.
Defined.

Lemma loading_cleared_after_request_witness :
  isLoading (ui (snd (fetchSummary_resume null_reply
                        (snd (fetchSummary (lit "quantum computing") initial)))))
  = false.
Proof.
  assert (H : trim (lit "quantum computing") <> [])
    by (vm_compute; discriminate).
  exact (proj1 (proj2 (proj2
    (loading_cleared_after_request (lit "quantum computing") initial
       null_reply H)))).
Defined.

(** * Instances for the rest of the component *)

Lemma posted_prompt_is_core_witness :
  exists pre t post,
    lit "  quantum computing " = pre ++ t ++ post /\
    starts_clean t = true /\ ends_clean t = true /\
    calls (snd (fetchSummary (lit "  quantum computing ") initial))
      = [Request API_URL (lit "POST")
           [(lit "Content-Type", lit "application/json")]
           (JObj [(lit "prompt", JStr t)])].
Proof.
  assert (H : trim (lit "  quantum computing ") <> [])
    by (vm_compute; discriminate).
  destruct (posted_prompt_is_core (lit "  quantum computing ") initial H)
    as (pre & t & post & H1 & _ & _ & H4 & H5 & H6).
  exists pre, t, post. repeat split; assumption.
Defined.

Lemma at_most_one_request_per_action_witness :
  calls (snd (fetchSummary_resume null_reply searching)) = calls searching.
Proof.
  exact (at_most_one_request_per_action (Settle null_reply) searching
           (snd (fetchSummary_resume null_reply searching)) eq_refl).
Defined.

Lemma completed_request_one_card_or_unmounted_witness :
  match
    option_map panel
      (App (ui (snd (fetchSummary_resume
                       (Resolved (Response 200 (inr quantum_answer)))
                       (snd (fetchSummary (lit "quantum error correction")
                               answered))))))
  with
  | Some cards => List.length cards = 1
  | None => True
  end.
Proof.
  assert (H : trim (lit "quantum error correction") <> [])
    by (vm_compute; discriminate).
  destruct (completed_request_one_card_or_unmounted
              (lit "quantum error correction") answered
              (Resolved (Response 200 (inr quantum_answer))) H)
    as [(t & s & _ & [(a & b & _ & _ & Hp)|(_ & Hp)])|(msg & _ & _ & Hp)];
    rewrite Hp; simpl; auto.
Defined.

Lemma non_object_body_gets_defaults_witness :
  response (ui (snd (fetchSummary_resume
                       (Resolved (Response 200 (inr (JStr (lit "done")))))
                       searching)))
  = Some (Result (JStr (lit "No title returned"))
                 (JStr (lit "No summary available for this topic yet."))).
Proof.
  apply (non_object_body_gets_defaults
           (Response 200 (inr (JStr (lit "done")))) (JStr (lit "done"))
           searching eq_refl eq_refl eq_refl).
  discriminate.
Defined.

Lemma error_field_used_when_detail_falsy_witness :
  error (ui (snd (fetchSummary_resume
                    (Resolved (Response 400
                       (inr (JObj [(lit "detail", JStr []);
                                   (lit "error", JStr (lit "Bad prompt"))]))))
                    searching)))
  = lit "Bad prompt".
Proof.
  apply (proj1 (error_field_used_when_detail_falsy
                  (Response 400
                     (inr (JObj [(lit "detail", JStr []);
                                 (lit "error", JStr (lit "Bad prompt"))])))
                  (JObj [(lit "detail", JStr []);
                         (lit "error", JStr (lit "Bad prompt"))])
                  searching eq_refl eq_refl eq_refl)).
  - reflexivity.
  - discriminate.
Defined.

Lemma every_request_is_well_formed_witness :
  Forall well_formed (calls answered).
Proof.
  apply every_request_is_well_formed.
  exists (firstn 3 quantum_session). reflexivity.
Defined.

Lemma controls_follow_the_request_witness :
  pending searching <= 1 /\
  option_map (fun v => button_label (form v)) (App (ui searching))
  = Some (lit "Searching" ++ [8230%N]).
Proof.
  assert (H : reachable searching)
    by (exists [Change (lit "quantum computing"); Submit]; reflexivity).
  destruct (controls_follow_the_request searching H) as [Hle Hc].
  split; [exact Hle|].
  destruct (Hc (View (query_panel (ui searching)) [ShownLoading] footnote_url)
              eq_refl) as [[Hp _]|[_ Hq]].
  - discriminate Hp.
  - reflexivity.
Defined.

Lemma controls_are_released_witness :
  exists w',
    live_step (Settle (Rejected failed_to_fetch)) searching = Some w' /\
    pending w' = 0 /\
    App (ui w') <> None.
Proof.
  assert (H : reachable searching)
    by (exists [Change (lit "quantum computing"); Submit]; reflexivity).
  destruct (controls_are_released searching (Rejected failed_to_fetch)
              (View (query_panel (ui searching)) [ShownLoading] footnote_url)
              H eq_refl eq_refl)
    as (w' & Hs & _ & Hp & _ & Hf & _).
  exists w'. split; [exact Hs|]. split; [exact Hp | exact (Hf eq_refl)].
Defined.

Lemma suggestion_click_always_posts_witness :
  step (Suggest 1) answered
  = Some (World (State (nth 1 suggestions []) (response (ui answered)) true [])
                (ask (nth 1 suggestions []) :: calls answered)
                (S (pending answered))).
Proof.
  apply (suggestion_click_always_posts 1 answered).
  - vm_compute. lia.
  - reflexivity.
Defined.

Lemma reachable_panel_cards_witness :
  exists v,
    App (ui answered) = Some v /\
    panel v <> [] /\ List.length (panel v) <= 2.
Proof.
  assert (H : reachable answered)
    by (exists (firstn 3 quantum_session); reflexivity).
  eexists. split; [reflexivity|].
  destruct (proj1 (reachable_panel_cards answered H) _ eq_refl)
    as (H1 & H2 & _).
  split; assumption.
Defined.

Lemma placeholder_until_first_submission_witness :
  In PlaceholderCard
     (results_panel (ui (World (State (lit "quantum") None false []) [] 0))).
Proof.
  apply (proj2 (placeholder_until_first_submission
                  [Change (lit "q"); Change (lit "quantum")]
                  (World (State (lit "quantum") None false []) [] 0)
                  eq_refl)).
  reflexivity.
Defined.

Lemma prompt_is_last_text_witness :
  prompt (ui answered) = typed [] (firstn 3 quantum_session).
Proof.
  exact (proj1 (prompt_is_last_text (firstn 3 quantum_session) answered eq_refl)).
Defined.
